(** * General-purpose agent tools: a shallow embedding

    The tools of [task/tools] (file content extraction, the RAG tool, the
    deployment proxy and its image-generation specialisation) are embedded
    as functions in a small state-and-exception monad.  The user-visible
    sinks (stage, choice) and the calls to external collaborators are
    recorded as one chronological trace of events. *)

From Stdlib Require Import ZArith List Ascii String DecimalString Lia.
From stdpp Require Import base option list gmap strings sorting.

Local Open Scope Z_scope.

(** ** Python values and helpers *)

Module Py.

(** Exceptions the embedded code can raise. *)
Inductive exn : Type :=
| JSONDecodeError
| AttributeError
| TypeError
| IndexError.

Inductive result (A : Type) : Type :=
| Ok (a : A)
| Raise (e : exn).
Arguments Ok {A} a.
Arguments Raise {A} e.

(** The scalar values a JSON payload can carry for the declared tool
    parameters ([null], booleans, integers and strings). *)
Inductive pyval : Type :=
| PNone
| PBool (b : bool)
| PInt (z : Z)
| PStr (s : string).

(** What [json.loads] produces: an object (a [dict]) or something that is
    not one. *)
Inductive parsed : Type :=
| Obj (d : gmap string pyval)
| NotObj.

Definition LF : string := String (ascii_of_nat 10) EmptyString.
Definition CR : string := String (ascii_of_nat 13) EmptyString.

(** [str(n)] for an [int]. *)
Definition str_int (z : Z) : string := NilZero.string_of_int (Z.to_int z).

(** [str(v)], as used by an f-string field [{v}]. *)
Definition str (v : pyval) : string :=
  match v with
  | PNone => "None"
  | PBool true => "True"
  | PBool false => "False"
  | PInt z => str_int z
  | PStr s => s
  end.

Definition str_opt (o : option string) : string :=
  match o with
  | Some s => s
  | None => "None"
  end.

(** The integer a value stands for in [<], [>] and arithmetic against an
    [int]; [None] and strings do not compare with integers. *)
Definition as_int (v : pyval) : result Z :=
  match v with
  | PInt z => Ok z
  | PBool b => Ok (if b then 1 else 0)
  | PNone | PStr _ => Raise TypeError
  end.

(** Truthiness of an optional string: [None] and [""] are falsy. *)
Definition truthy_str (o : option string) : bool :=
  match o with
  | Some (String _ _) => true
  | _ => false
  end.

Definition len (s : string) : Z := Z.of_nat (String.length s).

(** Normalisation of a slice bound against a length, as [slice.indices]
    does for step 1. *)
Definition clamp_bound (i n : Z) : Z :=
  if i <? 0 then Z.max 0 (i + n) else Z.min i n.

(** [s[start:stop]]. *)
Definition slice (s : string) (start stop : Z) : string :=
  let n := len s in
  let lo := clamp_bound start n in
  let hi := clamp_bound stop n in
  String.substring (Z.to_nat lo) (Z.to_nat (hi - lo)) s.

(** [l[i]] on a list: negative positions count from the end, positions
    outside the list raise [IndexError]. *)
Definition getitem {A : Type} (l : list A) (i : Z) : result A :=
  let n := Z.of_nat (length l) in
  let j := if i <? 0 then i + n else i in
  if (j <? 0) || (n <=? j) then Raise IndexError
  else match l !! Z.to_nat j with
       | Some x => Ok x
       | None => Raise IndexError
       end.

End Py.
Export Py.

(** ** Data model of the chat-completion API *)

Inductive Role : Type := SYSTEM | USER | ASSISTANT | TOOL.

Record Attachment : Type := {
  att_type : option string;
  att_title : option string;
  att_data : option string;
  att_url : option string;
  att_reference_url : option string;
  att_reference_type : option string
}.

Record CustomContent : Type := {
  attachments : option (list Attachment)
}.

(** One streamed increment: [chunk.choices[i].delta]. *)
Record Delta : Type := {
  delta_content : option string;
  delta_custom_content : option CustomContent
}.

Record Choice : Type := { delta : option Delta }.

Record Chunk : Type := { choices : list Choice }.

(** The arguments of [client.chat.completions.create]. *)
Record Request : Type := {
  req_base_url : string;
  req_api_key : string;
  req_api_version : string;
  req_messages : list (Role * pyval);
  req_stream : bool;
  req_deployment_name : string;
  req_configuration : option (gmap string pyval);
  req_params : gmap string pyval
}.

(** [aidial_sdk.chat_completion.Message], as the tools build it. *)
Record Message : Type := {
  msg_role : Role;
  msg_content : option string;
  msg_custom_content : option CustomContent;
  msg_tool_call_id : option string
}.

(** [ToolCallParams]; its [stage] and [choice] sinks live in the trace. *)
Record ToolCallParams : Type := {
  tool_call_id : string;
  tool_call_arguments : string;
  api_key : string;
  conversation_id : string
}.

(** ** External collaborators

    Everything the tools call but do not implement: the JSON parser, the
    DIAL file content extractor, the downstream chat-completion stream,
    the text splitter and the sentence-embedding model. *)

Class Collaborators : Type := {
  (** [json.loads]; [None] is a [JSONDecodeError]. *)
  json_loads : string → option parsed;
  (** [DialFileContentExtractor(endpoint, api_key).extract_text(file_url)];
      [None] when nothing could be extracted. *)
  extract_text : string → string → pyval → option string;
  (** The increments of a completed response stream. *)
  completions_create : Request → list Chunk;
  (** [RecursiveCharacterTextSplitter(...).split_text]. *)
  split_text : string → list string;
  (** Embedding vectors and [SentenceTransformer.encode] on one text. *)
  Vec : Type;
  encode : string → Vec;
  (** [l2_le q a b]: [a] is at least as close to [q] as [b] in L2
      distance. *)
  l2_le : Vec → Vec → Vec → bool;
  (** The eviction policy injected into the document cache (capacity or
      age based); it runs when an entry is stored. *)
  evict : gmap string (list Vec * list string)
          → gmap string (list Vec * list string)
}.

(** ** Trace, state and the execution monad *)

Inductive Event : Type :=
| StageContent (s : string)          (* stage.append_content *)
| StageAttachment (a : Attachment)   (* stage.add_attachment *)
| ChoiceContent (s : string)         (* choice.append_content *)
| Completion (r : Request)           (* chat.completions.create *)
| ExtractText (endpoint key : string) (file_url : pyval)
| SplitText (text : string)
| EncodeChunks (chunks : list string)
| EncodeQuery (request : string)
| IndexAdd (n : nat)
| IndexSearch (k : nat)
| CacheGet (key : string)
| CacheSet (key : string).

(** A flat L2 index holds its vectors in insertion order. *)
Abbreviation IndexFlatL2 := (list Vec).

(** A cache entry: the index and the chunk list it was built from. *)
Abbreviation CacheEntry := (list Vec * list string)%type.

Section Monad.
Context `{Collaborators}.

Record State : Type := {
  cache : gmap string CacheEntry;
  trace : list Event
}.

Definition M (A : Type) : Type := State → result A * State.

Definition ret {A : Type} (a : A) : M A := λ st, (Ok a, st).

Definition bind {A B : Type} (m : M A) (k : A → M B) : M B :=
  λ st, match m st with
        | (Ok a, st') => k a st'
        | (Raise e, st') => (Raise e, st')
        end.

Definition raise {A : Type} (e : exn) : M A := λ st, (Raise e, st).

Definition lift {A : Type} (r : result A) : M A := λ st, (r, st).

Definition emit (e : Event) : M unit :=
  λ st, (Ok tt, {| cache := cache st; trace := trace st ++ [e] |}).

Definition read_cache : M (gmap string CacheEntry) :=
  λ st, (Ok (cache st), st).

Definition write_cache (c : gmap string CacheEntry) : M unit :=
  λ st, (Ok tt, {| cache := c; trace := trace st |}).

Definition when (b : bool) (m : M unit) : M unit := if b then m else ret tt.

(** [for x in l: body x]. *)
Fixpoint for_each {A : Type} (l : list A) (body : A → M unit) : M unit :=
  match l with
  | [] => ret tt
  | x :: l' => bind (body x) (λ _, for_each l' body)
  end.

(** A loop over [l] that updates the local variables [acc]. *)
Fixpoint for_fold {A B : Type} (l : list A) (acc : B) (body : B → A → M B)
    : M B :=
  match l with
  | [] => ret acc
  | x :: l' => bind (body acc x) (λ acc', for_fold l' acc' body)
  end.

(** A list comprehension whose element expression can raise. *)
Fixpoint collect {A : Type} (l : list (result A)) : result (list A) :=
  match l with
  | [] => Ok []
  | Ok x :: l' =>
      match collect l' with
      | Ok xs => Ok (x :: xs)
      | Raise e => Raise e
      end
  | Raise e :: _ => Raise e
  end.

End Monad.

#[export] Instance M_ret `{Collaborators} : MRet M := λ A, ret.
#[export] Instance M_bind `{Collaborators} : MBind M := λ A B k m, bind m k.

Section Sinks.
Context `{Collaborators}.

Definition append_content (s : string) : M unit := emit (StageContent s).
Definition add_attachment (a : Attachment) : M unit := emit (StageAttachment a).
Definition choice_append_content (s : string) : M unit := emit (ChoiceContent s).

(** [json.loads(tool_call_params.tool_call.function.arguments)] followed
    by the first [.get], which needs a [dict]. *)
Definition load_arguments (p : ToolCallParams) : M (gmap string pyval) :=
  match json_loads (tool_call_arguments p) with
  | None => raise JSONDecodeError
  | Some (Obj d) => ret d
  | Some NotObj => raise AttributeError
  end.

(** [arguments.get(key)] and [arguments.get(key, dflt)]. *)
Definition dict_get (d : gmap string pyval) (key : string) : pyval :=
  default PNone (d !! key).
Definition dict_get_default (d : gmap string pyval) (key : string)
    (dflt : pyval) : pyval :=
  default dflt (d !! key).

(** The text written to the final-answer sink and the downstream requests
    found in a trace. *)
Definition choice_of (t : list Event) : list string :=
  omap (λ e, match e with ChoiceContent s => Some s | _ => None end) t.
Definition requests_of (t : list Event) : list Request :=
  omap (λ e, match e with Completion r => Some r | _ => None end) t.

End Sinks.

(** ** File content extraction tool
    ([task/tools/files/file_content_extraction_tool.py]) *)

Module FileContentExtractionTool.
Section Tool.
Context `{Collaborators}.

Definition show_in_stage : bool := false.

Definition page_size : Z := 10000.

Definition total_pages_of (content : string) : Z :=
  (len content + page_size - 1) `div` page_size.

(** Lines 100 to 110 of [_execute]: the pagination block.  It is indented
    under [if not content:], after the assignment of the error text, so
    [content] is that text whenever the block runs. *)
Definition paginate (content : string) (page : pyval) (pg : Z) : string :=
  let total_pages := total_pages_of content in
  if pg <? 1 then
    (* page = 1 *)
    content
  else if total_pages <? pg then
    "Error: Page " +:+ str page +:+ " does not exist. Total pages: "
      +:+ str_int total_pages
  else
    let start_index := (pg - 1) * page_size in
    let end_index := start_index + page_size in
    let page_content := slice content start_index end_index in
    page_content +:+ LF +:+ LF +:+ "**Page #" +:+ str page
      +:+ ". Total pages: " +:+ str_int total_pages +:+ "**".

Definition _execute (endpoint : string) (p : ToolCallParams) : M string :=
  arguments ← load_arguments p;
  let file_url := dict_get arguments "file_url" in
  let page := dict_get_default arguments "page" (PInt 1) in
  when (negb show_in_stage)
    (append_content ("## Request arguments: " +:+ LF));;
  when (negb show_in_stage)
    (append_content ("**File URL**: " +:+ str file_url +:+ LF +:+ CR));;
  pg ← lift (as_int page);
  when ((1 <? pg) && negb show_in_stage)
    (append_content ("**Page**: " +:+ str page +:+ LF +:+ CR));;
  when (negb show_in_stage) (append_content ("## Response: " +:+ LF));;
  emit (ExtractText endpoint (api_key p) file_url);;
  let content := extract_text endpoint (api_key p) file_url in
  let content :=
    if negb (truthy_str content) then
      paginate "Error: File content not found." page pg
    else default "" content in
  when (negb show_in_stage)
    (append_content ("```text" +:+ LF +:+ CR +:+ content +:+ LF +:+ CR
                       +:+ "```" +:+ LF +:+ CR));;
  ret content.

End Tool.
End FileContentExtractionTool.

(** ** Deployment proxy tool ([task/tools/deployment/base.py]) *)

(** The abstract properties of [DeploymentTool] and its constructor
    argument. *)
Class DeploymentTool : Type := {
  endpoint : string;
  deployment_name : string;
  tool_parameters : gmap string pyval
}.

Module Deployment.
Section Tool.
Context `{C : Collaborators} `{T : DeploymentTool}.

(** The body of [async for chunk in chunks], on the local variables
    [content] and [custom_content.attachments]. *)
Definition consume (acc : string * list Attachment) (chunk : Chunk)
    : M (string * list Attachment) :=
  match choices chunk with
  | [] => ret acc
  | choice0 :: _ =>
      match delta choice0 with
      | None => ret acc
      | Some d =>
          acc ← (if truthy_str (delta_content d) then
                   append_content (default "" (delta_content d));;
                   ret (acc.1 +:+ default "" (delta_content d), acc.2)
                 else ret acc);
          match delta_custom_content d with
          | None => ret acc
          | Some cc =>
              match attachments cc with
              | None | Some [] => ret acc
              | Some atts =>
                  for_each atts add_attachment;;
                  ret (acc.1, acc.2 ++ atts)
              end
          end
      end
  end.

Definition request_of (p : ToolCallParams) (prompt : pyval)
    (arguments : gmap string pyval) : Request :=
  {| req_base_url := endpoint;
     req_api_key := api_key p;
     req_api_version := "2025-01-01-preview";
     req_messages := [(USER, prompt)];
     req_stream := true;
     req_deployment_name := deployment_name;
     req_configuration := Some arguments;
     req_params := tool_parameters |}.

Definition _execute (p : ToolCallParams) : M Message :=
  arguments ← load_arguments p;
  let prompt := dict_get arguments "prompt" in
  let arguments := delete "prompt" arguments in
  let request := request_of p prompt arguments in
  emit (Completion request);;
  acc ← for_fold (completions_create request) (EmptyString, []) consume;
  ret {| msg_role := TOOL;
         msg_content := Some acc.1;
         msg_custom_content := Some {| attachments := Some acc.2 |};
         msg_tool_call_id := Some (tool_call_id p) |}.

End Tool.
End Deployment.

(** ** Image generation tool
    ([task/tools/deployment/image_generation_tool.py]) *)

Module ImageGenerationTool.

Definition is_image (a : Attachment) : bool :=
  bool_decide (att_type a = Some "image/png")
  || bool_decide (att_type a = Some "image/jpeg").

Definition render (a : Attachment) : string :=
  LF +:+ CR +:+ "![image](" +:+ str_opt (att_url a) +:+ ")" +:+ LF +:+ CR.

Definition confirmation : string :=
  "The image has been successfully generated according to request and shown to user!".

Definition with_content (m : Message) (c : string) : Message :=
  {| msg_role := msg_role m;
     msg_content := Some c;
     msg_custom_content := msg_custom_content m;
     msg_tool_call_id := msg_tool_call_id m |}.

Section Tool.
Context `{Collaborators}.

#[local] Instance tool (endpoint : string) : DeploymentTool :=
  {| endpoint := endpoint;
     deployment_name := "dall-e-3";
     tool_parameters := ∅ |}.

Definition _execute (endpoint : string) (p : ToolCallParams) : M Message :=
  message ← Deployment._execute (T := tool endpoint) p;
  match msg_custom_content message with
  | Some {| attachments := Some ((_ :: _) as atts) |} =>
      for_each atts (λ attachment,
        when (is_image attachment)
             (choice_append_content (render attachment)));;
      if truthy_str (msg_content message) then ret message
      else ret (with_content message confirmation)
  | _ => ret message
  end.

End Tool.
End ImageGenerationTool.

(** ** Document cache *)

Module DocumentCache.
Section Cache.
Context `{Collaborators}.

(** Modelled from the spec: [task/tools/rag/document_cache.py] is not among
    the sources.  [get(key)] returns the entry stored under [key] or
    nothing, and leaves the store as it is. *)
Definition get (key : string) : M (option CacheEntry) :=
  emit (CacheGet key);;
  store ← read_cache;
  ret (store !! key).

(** Modelled from the spec: [set(key, index, chunks)] stores the pair as
    one entry under [key]; the bounded store then applies its eviction
    policy, which removes whole entries. *)
Definition set (key : string) (index : IndexFlatL2) (chunks : list string)
    : M unit :=
  emit (CacheSet key);;
  store ← read_cache;
  write_cache (evict (<[key := (index, chunks)]> store)).

End Cache.
End DocumentCache.

(** ** RAG tool ([task/tools/rag/rag_tool.py]) *)

Module RagTool.

Definition _SYSTEM_PROMPT : string :=
  LF +:+
  "You are a helpful assistant for question-answering tasks based on retrieved chunks of documents."
  +:+ LF +:+
  "You receive a question and some chunks of documents that are relevant to this question. Your task is to provide a comprehensive and accurate answer to the question using the information from the retrieved chunks. "
  +:+ LF +:+
  "Make sure to use the retrieved chunks effectively to construct your answer. If the information in the chunks is not sufficient to answer the question, do your best to provide a relevant and informative response based on the available data. Always try to give the most complete answer possible, and if you are unsure about something, make that clear in your response."
  +:+ LF.

(** The [cache_document_key] f-string. *)
Definition cache_document_key (conversation_id : string) (file_url : pyval)
    : string :=
  conversation_id +:+ "_" +:+ str file_url.

(** [__augmentation]. *)
Definition augmentation (request : pyval) (chunks : list string) : string :=
  let augmented_prompt :=
    "Use the following retrieved chunks from the document to answer the question:"
      +:+ LF +:+ LF in
  let augmented_prompt :=
    fold_left
      (λ acc (ic : nat * string),
         acc +:+ "Chunk " +:+ str_int (Z.of_nat ic.1 + 1) +:+ ":" +:+ LF
             +:+ ic.2 +:+ LF +:+ LF)
      (imap pair chunks) augmented_prompt in
  augmented_prompt +:+ "Question: " +:+ str request +:+ LF +:+ LF
    +:+ "Answer:".

Section Tool.
Context `{Collaborators}.

(** [faiss.IndexFlatL2.search] for one query, after the contract of the
    library: the result has exactly [k] labels, the stored positions by
    increasing distance to the query, and [-1] in the places for which the
    index has no vector left. *)
Fixpoint insert_ranked (q : Vec) (x : nat * Vec) (l : list (nat * Vec))
    : list (nat * Vec) :=
  match l with
  | [] => [x]
  | y :: l' =>
      if l2_le q x.2 y.2 then x :: l else y :: insert_ranked q x l'
  end.

Definition ranked (index : IndexFlatL2) (q : Vec) : list nat :=
  (foldr (insert_ranked q) [] (imap pair index)).*1.

Definition search (index : IndexFlatL2) (q : Vec) (k : nat) : list Z :=
  let found := take k (ranked index q) in
  (Z.of_nat <$> found) ++ replicate (k - length found) (-1).

(** Steps 12 and 13: the search with [k=3] and the lookup of every
    returned position in [chunks]. *)
Definition retrieve (index : IndexFlatL2) (chunks : list string)
    (query_embedding : Vec) : M (list string) :=
  emit (IndexSearch 3);;
  let indices := search index query_embedding 3 in
  lift (collect (getitem chunks <$> indices)).

(** The body of [async for chunk in chunks] of the generation step. *)
Definition consume (response_content : string) (chunk : Chunk) : M string :=
  match choices chunk with
  | [] => ret response_content
  | choice0 :: _ =>
      match delta choice0 with
      | Some d =>
          if truthy_str (delta_content d) then
            append_content (default "" (delta_content d));;
            ret (response_content +:+ default "" (delta_content d))
          else ret response_content
      | None => ret response_content
      end
  end.

(** Steps 11 to 19, once [index] and [chunks] are at hand.  The embedding
    model encodes text: a [request] that is not a string is refused. *)
Definition answer (endpoint deployment_name : string) (p : ToolCallParams)
    (request : pyval) (index : IndexFlatL2) (chunks : list string)
    : M string :=
  query_embedding ←
    match request with
    | PStr s => emit (EncodeQuery s);; ret (encode s)
    | _ => raise TypeError
    end;
  retrieved_chunks ← retrieve index chunks query_embedding;
  let augmented_prompt := augmentation request retrieved_chunks in
  append_content ("## RAG Request: " +:+ LF);;
  append_content ("```text" +:+ LF +:+ CR +:+ augmented_prompt +:+ LF +:+ CR
                    +:+ "```" +:+ LF +:+ CR);;
  append_content ("## Response: " +:+ LF);;
  let request :=
    {| req_base_url := endpoint;
       req_api_key := api_key p;
       req_api_version := "2025-01-01-preview";
       req_messages := [(SYSTEM, PStr _SYSTEM_PROMPT);
                        (USER, PStr augmented_prompt)];
       req_stream := true;
       req_deployment_name := deployment_name;
       req_configuration := None;
       req_params := ∅ |} in
  emit (Completion request);;
  for_fold (completions_create request) EmptyString consume.

(** [_execute].  The index is built by adding the embeddings of the chunks,
    in chunk order, to an empty index; the array shape checks of the
    libraries are outside the model. *)
Definition _execute (endpoint deployment_name : string) (p : ToolCallParams)
    : M string :=
  arguments ← load_arguments p;
  let request := dict_get arguments "request" in
  let file_url := dict_get arguments "file_url" in
  append_content ("## Request arguments: " +:+ LF);;
  append_content ("**Request**: " +:+ str request +:+ LF +:+ CR);;
  append_content ("**File URL**: " +:+ str file_url +:+ LF +:+ CR);;
  let cache_document_key := cache_document_key (conversation_id p) file_url in
  cached_data ← DocumentCache.get cache_document_key;
  match cached_data with
  | Some (index, chunks) =>
      answer endpoint deployment_name p request index chunks
  | None =>
      emit (ExtractText endpoint (api_key p) file_url);;
      let text_content := extract_text endpoint (api_key p) file_url in
      if negb (truthy_str text_content) then
        append_content "No text content could be extracted from the file.";;
        ret "Error: File content not found."%string
      else
        let text_content := default "" text_content in
        emit (SplitText text_content);;
        let chunks := split_text text_content in
        emit (EncodeChunks chunks);;
        let embeddings := encode <$> chunks in
        let index : IndexFlatL2 := [] in
        emit (IndexAdd (length embeddings));;
        let index := index ++ embeddings in
        DocumentCache.set cache_document_key index chunks;;
        answer endpoint deployment_name p request index chunks
  end.

End Tool.
End RagTool.

(** ** What a response stream carries *)

Module Stream.

(** The increment of a chunk: the delta of its first choice. *)
Definition increment (chunk : Chunk) : option Delta :=
  match choices chunk with
  | [] => None
  | choice0 :: _ => delta choice0
  end.

Definition increment_text (chunk : Chunk) : string :=
  match increment chunk with
  | Some d => if truthy_str (delta_content d) then default "" (delta_content d)
              else ""
  | None => ""
  end.

Definition increment_attachments (chunk : Chunk) : list Attachment :=
  match increment chunk with
  | Some {| delta_custom_content := Some {| attachments := Some atts |} |} =>
      atts
  | _ => []
  end.

(** Text and attachments of a whole stream, in arrival order. *)
Definition accumulated_text (stream : list Chunk) : string :=
  foldr (λ chunk rest, increment_text chunk +:+ rest) "" stream.

Definition accumulated_attachments (stream : list Chunk) : list Attachment :=
  concat (increment_attachments <$> stream).

(** The stage events one increment produces: its text, if any, and in the
    deployment proxy its attachments as well. *)
Definition relayed (chunk : Chunk) : list Event :=
  if bool_decide (increment_text chunk = "") then []
  else [StageContent (increment_text chunk)].

Definition mirrored (chunk : Chunk) : list Event :=
  relayed chunk ++ (StageAttachment <$> increment_attachments chunk).

(** Events of the generation step, and events of the work done on a
    document (extraction, splitting, chunk embedding, index construction,
    caching). *)
Definition quiet (e : Event) : bool :=
  match e with
  | StageContent _ | EncodeQuery _ | IndexSearch _ | Completion _ => true
  | _ => false
  end.

Definition document_work (e : Event) : bool :=
  match e with
  | ExtractText _ _ _ | SplitText _ | EncodeChunks _ | IndexAdd _
  | CacheSet _ => true
  | _ => false
  end.

Definition builds_index (e : Event) : bool :=
  match e with
  | SplitText _ | EncodeChunks _ | IndexAdd _ | CacheSet _ => true
  | _ => false
  end.

Definition cache_reads (t : list Event) : list string :=
  omap (λ e, match e with CacheGet key => Some key | _ => None end) t.

End Stream.
Import Stream.

(** ** Vocabulary of the statements *)

(** Steps 10 and 11 of the file tool: the extracted text as it is, or,
    when there is none, the error text after the pagination block. *)
Definition shown_content (extracted : option string) (page : pyval) (pg : Z)
    : string :=
  if truthy_str extracted then default "" extracted
  else FileContentExtractionTool.paginate "Error: File content not found."
         page pg.

(** The footer of a page and the out-of-range error text. *)
Definition footer (page total : Z) : string :=
  LF +:+ LF +:+ "**Page #" +:+ str_int page +:+ ". Total pages: "
     +:+ str_int total +:+ "**".

Definition page_error (page total : Z) : string :=
  "Error: Page " +:+ str_int page +:+ " does not exist. Total pages: "
    +:+ str_int total.

(** The content of a returned message. *)
Definition content_of (r : result Message) : option string :=
  match r with
  | Ok m => msg_content m
  | Raise _ => None
  end.

Definition attachments_of (r : result Message) : option (list Attachment) :=
  match r with
  | Ok {| msg_custom_content := Some cc |} => attachments cc
  | _ => None
  end.

(** What the RAG tool writes to the stage before it consults the cache. *)
Definition request_header (request file_url : pyval) : list Event :=
  [StageContent ("## Request arguments: " +:+ LF);
   StageContent ("**Request**: " +:+ str request +:+ LF +:+ CR);
   StageContent ("**File URL**: " +:+ str file_url +:+ LF +:+ CR)].

(** Whether a conversation id contains the separator of the cache key. *)
Fixpoint has_separator (s : string) : bool :=
  match s with
  | EmptyString => false
  | String ch s' => Ascii.eqb ch "_" || has_separator s'
  end.

(** ** Scenarios *)

Module Scenario.

Fixpoint repeat_char (c : ascii) (n : nat) : string :=
  match n with
  | O => EmptyString
  | S n' => String c (repeat_char c n')
  end.

(** A document of 25,000 characters. *)
Definition document_25000 : string :=
  repeat_char "a" (Z.to_nat 10000) +:+ repeat_char "b" (Z.to_nat 10000)
    +:+ repeat_char "c" (Z.to_nat 5000).

(** Collaborators with a fixed parsed payload, extracted text and response
    stream; embeddings are integers and the distance is the squared
    difference. *)
Definition world (arguments : gmap string pyval) (text : option string)
    (chunks : list string) (stream : list Chunk) : Collaborators :=
  {| json_loads := λ _, Some (Obj arguments);
     extract_text := λ _ _ _, text;
     completions_create := λ _, stream;
     split_text := λ _, chunks;
     Vec := Z;
     encode := λ s, Z.of_nat (String.length s);
     l2_le := λ q a b, (q - a) * (q - a) <=? (q - b) * (q - b);
     evict := λ store, store |}.

Definition params (conversation : string) : ToolCallParams :=
  {| tool_call_id := "call_1";
     tool_call_arguments := "arguments";
     api_key := "secret";
     conversation_id := conversation |}.

Definition initial `{Collaborators} : State := {| cache := ∅; trace := [] |}.

Definition page_arguments (page : Z) : gmap string pyval :=
  {[ "file_url" := PStr "files/report.txt"; "page" := PInt page ]}.

End Scenario.

Module RagScenario.

Definition arguments : gmap string pyval :=
  {[ "request" := PStr "What is the refund policy?";
     "file_url" := PStr "files/policy.txt" ]}.

Definition reply : list Chunk :=
  [ {| choices := [ {| delta := Some {| delta_content := Some "Thirty ";
                                         delta_custom_content := None |} |} ] |};
    {| choices := [ {| delta := Some {| delta_content := Some "days.";
                                         delta_custom_content := None |} |} ] |} ].

(** No text can be extracted from the document. *)
Definition unreadable : Collaborators := Scenario.world arguments None [] reply.

(** The document splits into two chunks. *)
Definition readable : Collaborators :=
  Scenario.world arguments (Some "Refunds within thirty days. Ask support.")
    ["Refunds within thirty days."; "Ask support."] reply.

Definition key : string := "conv1_files/policy.txt".

(** The cache already holds the two-chunk document of conversation
    [conv1]. *)
Definition cached : State (H := readable) :=
  {| cache := {[ key := ([27; 12], ["Refunds within thirty days."; "Ask support."]) ]};
     trace := [] |}.

End RagScenario.

Module ImageScenario.

Definition arguments : gmap string pyval :=
  {[ "prompt" := PStr "A lighthouse at dawn"; "size" := PStr "1024x1024";
     "quality" := PStr "hd" ]}.

Definition arguments_without_prompt : gmap string pyval :=
  {[ "size" := PStr "1024x1024" ]}.

Definition attachment (type url : string) : Attachment :=
  {| att_type := Some type; att_title := Some "image"; att_data := None;
     att_url := Some url; att_reference_url := None;
     att_reference_type := None |}.

Definition png : Attachment := attachment "image/png" "files/a.png".
Definition jpeg : Attachment := attachment "image/jpeg" "files/b.jpg".
Definition notes : Attachment := attachment "text/plain" "files/notes.txt".

Definition increment (text : option string) (atts : option (list Attachment))
    : Chunk :=
  {| choices :=
       [ {| delta := Some {| delta_content := text;
                             delta_custom_content :=
                               Some {| attachments := atts |} |} |} ] |}.

(** A stream with text and three attachments. *)
Definition stream : list Chunk :=
  [ increment (Some "Here ") (Some [png]);
    {| choices := [] |};
    increment (Some "you go") (Some [notes; jpeg]) ].

(** A stream with attachments and no text. *)
Definition silent_stream : list Chunk :=
  [ increment None (Some [png]); increment (Some "") None ].

Definition talking : Collaborators := Scenario.world arguments None [] stream.
Definition silent : Collaborators :=
  Scenario.world arguments None [] silent_stream.
Definition empty : Collaborators := Scenario.world arguments None [] [].
Definition promptless : Collaborators :=
  Scenario.world arguments_without_prompt None [] stream.

End ImageScenario.

(** ** Further vocabulary *)

(** Concatenation of a list of strings. *)
Definition join (l : list string) : string := foldr String.append "" l.

(** The stage text and the stage attachments found in a trace. *)
Definition stage_text (t : list Event) : list string :=
  omap (λ e, match e with StageContent s => Some s | _ => None end) t.

Definition stage_attachments (t : list Event) : list Attachment :=
  omap (λ e, match e with StageAttachment a => Some a | _ => None end) t.

(** The fenced block in which the file tool shows its result. *)
Definition fenced (content : string) : string :=
  "```text" +:+ LF +:+ CR +:+ content +:+ LF +:+ CR +:+ "```" +:+ LF +:+ CR.

(** The comparison of distances is a total preorder for query [q]. *)
Definition distance_order `{Collaborators} (q : Vec) : Prop :=
  (∀ a b, l2_le q a b = true ∨ l2_le q b a = true)
  ∧ (∀ a b c, l2_le q a b = true → l2_le q b c = true → l2_le q a c = true).

(** Position [i] holds a vector at least as close to [q] as position [j]. *)
Definition closer_position `{Collaborators} (index : list Vec) (q : Vec)
    (i j : nat) : Prop :=
  ∀ vi vj, index !! i = Some vi → index !! j = Some vj → l2_le q vi vj = true.

(** The request of the generation step of the RAG tool. *)
Definition generation_request (endpoint deployment_name : string)
    (p : ToolCallParams) (augmented_prompt : string) : Request :=
  {| req_base_url := endpoint;
     req_api_key := api_key p;
     req_api_version := "2025-01-01-preview";
     req_messages := [(SYSTEM, PStr RagTool._SYSTEM_PROMPT);
                      (USER, PStr augmented_prompt)];
     req_stream := true;
     req_deployment_name := deployment_name;
     req_configuration := None;
     req_params := ∅ |}.

(** The label of chunk number [i] (from 0) in the augmented prompt. *)
Definition labelled_chunk (i : nat) (chunk : string) : string :=
  "Chunk " +:+ str_int (Z.of_nat i + 1) +:+ ":" +:+ LF +:+ chunk
    +:+ LF +:+ LF.

(** ** Remote tools ([task/tools/mcp/mcp_tool.py]) *)

(** The description of a remote tool, as discovery returns it. *)
Record MCPToolModel : Type := {
  mcp_name : string;
  mcp_description : string;
  mcp_parameters : gmap string pyval
}.

(** The remote channel: [MCPClient.call_tool], which returns the content
    of the call or fails, and the discovery of the tools of a server
    ([MCPClient.create] followed by [get_tools]). *)
Class MCPClient : Type := {
  call_tool : string → parsed → result string;
  discover : string → result (list MCPToolModel)
}.

Module MCPTool.
Section Tool.
Context `{C : Collaborators} `{R : MCPClient}.

Definition name (model : MCPToolModel) : string := mcp_name model.

Definition _execute (model : MCPToolModel) (p : ToolCallParams) : M string :=
  match json_loads (tool_call_arguments p) with
  | None => raise JSONDecodeError
  | Some tool_args =>
      content ← lift (call_tool (mcp_name model) tool_args);
      append_content content;;
      ret content
  end.

End Tool.
End MCPTool.

(** ** The application ([task/app.py]) *)

Module App.

(** The tools the application registers. *)
Inductive Tool : Type :=
| ImageGeneration (endpoint : string)
| FileContentExtraction (endpoint : string)
| Rag (endpoint deployment_name : string)
| MCP (model : MCPToolModel).

(** The [name] property of each tool. *)
Definition name (t : Tool) : string :=
  match t with
  | ImageGeneration _ => "image_generation_tool"
  | FileContentExtraction _ => "file_content_extractor"
  | Rag _ _ => "rag_tool"
  | MCP model => MCPTool.name model
  end.

(** [self.tools], and the servers the application has connected to so
    far. *)
Record Application : Type := {
  tools : list Tool;
  connections : list string
}.

(** The settings read from the environment, and the agent loop, which is
    not part of these sources: [handle_request] stands for
    [GeneralPurposeAgent(...).handle_request] on the given tools. *)
Class Environment `{Collaborators} : Type := {
  DIAL_ENDPOINT : string;
  DEPLOYMENT_NAME : string;
  handle_request : list Tool → M unit
}.

Section Application.
Context `{C : Collaborators} `{R : MCPClient} `{E : !Environment}.

Definition mcp_server : string := "http://localhost:8051/mcp".

(** [_create_tools] suspends twice, at [await MCPClient.create(...)] and at
    [await mcp_tools].  Up to the first await it has opened the connection
    to the server; what it returns once resumed are the three local tools,
    then one tool per remote tool model of the server. *)
Definition begin_creation (app : Application) : Application :=
  {| tools := App.tools app;
     connections := connections app ++ [mcp_server] |}.

Definition created_tools : result (list Tool) :=
  let tools := [ImageGeneration DIAL_ENDPOINT;
                FileContentExtraction DIAL_ENDPOINT;
                Rag DIAL_ENDPOINT DEPLOYMENT_NAME] in
  match discover mcp_server with
  | Ok models => Ok (tools ++ (MCP <$> models))
  | Raise e => Raise e
  end.

(** [_create_tools], run without interruption. *)
Definition _create_tools (app : Application)
    : result (list Tool) * Application :=
  (created_tools, begin_creation app).

(** Modelled from the spec: [DocumentCache.create()] gives a new, empty
    cache; it becomes the cache of the RAG tool when the created tools are
    assigned to [self.tools]. *)
Definition fresh_cache (st : State) : State :=
  {| cache := ∅; trace := trace st |}.

(** [chat_completion] for a request that runs alone, from its arrival to
    its end with no other request in between: the tools are created when
    [self.tools] is empty, then the agent handles the request with
    [self.tools]. *)
Definition chat_completion (app : Application) (st : State)
    : result unit * Application * State :=
  match App.tools app with
  | [] =>
      match _create_tools app with
      | (Ok created, app) =>
          let app := {| tools := created; connections := connections app |} in
          let (r, st) := handle_request created (fresh_cache st) in
          (r, app, st)
      | (Raise e, app) => (Raise e, app, st)
      end
  | _ :: _ =>
      let (r, st) := handle_request (App.tools app) st in (r, app, st)
  end.

(** [n] requests handled one after another: each one ends before the next
    arrives. *)
Fixpoint serve (n : nat) (app : Application) (st : State)
    : Application * State :=
  match n with
  | O => (app, st)
  | S n' =>
      let '(_, app, st) := chat_completion app st in serve n' app st
  end.

(** *** Requests that overlap

    [chat_completion] tests [self.tools] and, when it is empty, awaits
    [_create_tools] before it assigns the result: other requests can
    arrive in between.  A system is the application, the sinks and cache,
    and the number of requests suspended inside [_create_tools]. *)
Record System : Type := {
  application : Application;
  state : State;
  waiting : nat
}.

(** A request arrives, or a suspended creation is resumed. *)
Inductive Action : Type := Arrive | Resume.

Definition step (a : Action) (s : System) : System :=
  match a with
  | Arrive =>
      match App.tools (application s) with
      | [] =>
          (* if not self.tools: ... await self._create_tools() *)
          {| application := begin_creation (application s);
             state := state s;
             waiting := S (waiting s) |}
      | _ :: _ =>
          let (_, st) :=
            handle_request (App.tools (application s)) (state s) in
          {| application := application s; state := st;
             waiting := waiting s |}
      end
  | Resume =>
      match waiting s with
      | O => s
      | S w =>
          match created_tools with
          | Ok created =>
              (* self.tools = <created>, then the agent runs *)
              let (_, st) :=
                handle_request created (fresh_cache (state s)) in
              {| application :=
                   {| tools := created;
                      connections := connections (application s) |};
                 state := st;
                 waiting := w |}
          | Raise _ =>
              {| application := application s; state := state s;
                 waiting := w |}
          end
      end
  end.

Definition run (schedule : list Action) (s : System) : System :=
  fold_left (λ s a, step a s) schedule s.

End Application.
End App.

(** ** Further scenarios *)

Module MoreScenarios.

(** Collaborators whose JSON parser gives [r] for every payload. *)
Definition parsing (r : option parsed) : Collaborators :=
  {| json_loads := λ _, r;
     extract_text := λ _ _ _, None;
     completions_create := λ _, [];
     split_text := λ _, [];
     Vec := Z;
     encode := λ s, Z.of_nat (String.length s);
     l2_le := λ q a b, (q - a) * (q - a) <=? (q - b) * (q - b);
     evict := λ store, store |}.

(** A stream with one attachment that is not an image, and no text. *)
Definition notes_only : Collaborators :=
  Scenario.world ImageScenario.arguments None []
    [ImageScenario.increment None (Some [ImageScenario.notes])].

Definition weather : MCPToolModel :=
  {| mcp_name := "get_weather";
     mcp_description := "Weather for a city";
     mcp_parameters := ∅ |}.

(** A remote channel that answers every call and offers one tool. *)
Definition remote : MCPClient :=
  {| call_tool := λ name _, Ok ("sunny, says " +:+ name);
     discover := λ _, Ok [weather] |}.

(** A remote channel whose server cannot be reached: calls and discovery
    raise. *)
Definition unreachable : MCPClient :=
  {| call_tool := λ _ _, Raise TypeError;
     discover := λ _, Raise TypeError |}.

(** An agent loop that writes one line to the stage. *)
Definition environment : App.Environment (H := RagScenario.readable) :=
  {| App.DIAL_ENDPOINT := "http://localhost:8080";
     App.DEPLOYMENT_NAME := "gpt-4o";
     App.handle_request := λ _, append_content "handled" |}.

Definition started : App.Application :=
  {| App.tools := []; App.connections := [] |}.

End MoreScenarios.

(** * Properties *)

(** Symbolic execution of the monadic code: unfold the monad and the sink
    primitives, nothing else. *)
Ltac run :=
  cbv beta iota zeta delta
    [mbind mret M_bind M_ret bind ret raise lift emit when
     read_cache write_cache
     append_content add_attachment choice_append_content
     negb andb fst snd cache trace
     FileContentExtractionTool.show_in_stage].

(** The same, leaving the loops over attachments folded. *)
Ltac run_monad :=
  cbv beta iota zeta delta
    [mbind mret M_bind M_ret bind ret raise lift emit when
     read_cache write_cache append_content negb andb fst snd cache trace].

(** ** Python helpers on small inputs *)

Example str_int_zero : str_int 0 = "0"%string.
Proof. reflexivity. Qed.

Example str_int_negative : str_int (-3) = "-3"%string.
Proof. reflexivity. Qed.

Example slice_clamps_stop : slice "abcdef" 2 100 = "cdef"%string.
Proof. reflexivity. Qed.

Example slice_negative_start : slice "abcdef" (-2) 6 = "ef"%string.
Proof. reflexivity. Qed.

Example getitem_negative : getitem [1; 2; 3] (-1) = Ok 3.
Proof. reflexivity. Qed.

Example getitem_out_of_range : getitem [1; 2; 3] 3 = Raise IndexError.
Proof. reflexivity. Qed.

Example getitem_empty : getitem (@nil Z) (-1) = Raise IndexError.
Proof. reflexivity. Qed.

(** ** File content extraction *)

Section FileExtractionFacts.
Context `{Collaborators}.
Import FileContentExtractionTool.

Lemma execute_returns endpoint p d st pg :
  json_loads (tool_call_arguments p) = Some (Obj d) →
  as_int (dict_get_default d "page" (PInt 1)) = Ok pg →
  (_execute endpoint p st).1 =
    Ok (shown_content
          (extract_text endpoint (api_key p) (dict_get d "file_url"))
          (dict_get_default d "page" (PInt 1)) pg).
Proof.
  intros Hjson Hpg.
  unfold _execute, load_arguments, shown_content. rewrite Hjson.
  run. rewrite Hpg. run.
  destruct (truthy_str _); destruct (1 <? pg); reflexivity.
Qed.

Lemma total_pages_ceil content :
  10000 * (total_pages_of content - 1) < len content
    ≤ 10000 * total_pages_of content.
Proof.
  unfold total_pages_of, page_size.
  pose proof (Z.div_mod (len content + 10000 - 1) 10000 ltac:(lia)) as Hdm.
  pose proof (Z.mod_pos_bound (len content + 10000 - 1) 10000 ltac:(lia)).
  lia.
Qed.

Lemma shown_content_some content page pg :
  0 < len content → shown_content (Some content) page pg = content.
Proof.
  destruct content; [unfold len; simpl; lia | reflexivity].
Qed.

(** Extracted text comes back as it is, whatever the page. *)
Lemma extracted_content_helper endpoint p d st content pg :
  json_loads (tool_call_arguments p) = Some (Obj d) →
  dict_get_default d "page" (PInt 1) = PInt pg →
  extract_text endpoint (api_key p) (dict_get d "file_url") = Some content →
  0 < len content →
  (_execute endpoint p st).1 = Ok content.
Proof.
  intros Hjson Hp Hext Hlen.
  rewrite (execute_returns endpoint p d st pg Hjson)
    by (rewrite Hp; reflexivity).
  rewrite Hext, shown_content_some by assumption. reflexivity.
Qed.

(** The pagination block on the error text, which has one page. *)
Lemma paginate_error_text pg :
  paginate "Error: File content not found." (PInt pg) pg
  = if pg <? 1 then "Error: File content not found."%string
    else if 1 <? pg then page_error pg 1
    else ("Error: File content not found." +:+ footer 1 1)%string.
Proof.
  unfold paginate.
  change (total_pages_of "Error: File content not found.") with 1.
  destruct (Z.ltb_spec pg 1); [reflexivity |].
  destruct (Z.ltb_spec 1 pg); [reflexivity |].
  assert (pg = 1) as -> by lia. reflexivity.
Qed.

Lemma len_append a b : len (a +:+ b) = len a + len b.
Proof.
  unfold len. induction a as [| ch a IH].
  - change ("" +:+ b)%string with b. cbn [String.length]. lia.
  - change (String ch a +:+ b) with (String ch (a +:+ b)).
    cbn [String.length]. lia.
Qed.

Lemma len_substring n m s : len (String.substring n m s) ≤ Z.of_nat m.
Proof.
  unfold len. apply inj_le.
  revert n m. induction s as [| ch s IH]; intros [| n] [| m];
    try (cbn; lia).
  - change (S (String.length (String.substring 0 m s)) ≤ S m)%nat.
    specialize (IH 0%nat m). lia.
  - exact (IH n 0%nat).
  - exact (IH n (S m)).
Qed.

End FileExtractionFacts.

Section PaginationClaims.
Context `{Collaborators}.
Import FileContentExtractionTool.

(** C2, as the code behaves: extracted text is never paginated.  The
    pagination block is the body of [if not content:], so for content
    longer than 10,000 characters every integer page returns the whole
    content; for a document of 25,000 characters the result is neither
    characters [0,10000) with the footer of page 1, nor characters
    [20000,25000) with the footer of page 3, nor the out-of-range error
    citing 3 pages. *)
Theorem extracted_content_is_never_paginated endpoint p d st content pg :
  json_loads (tool_call_arguments p) = Some (Obj d) →
  dict_get_default d "page" (PInt 1) = PInt pg →
  extract_text endpoint (api_key p) (dict_get d "file_url") = Some content →
  10000 < len content →
  let result := (_execute endpoint p st).1 in
  result = Ok content
  ∧ (len content = 25000 →
       result ≠ Ok (String.substring 0 (Z.to_nat 10000) content +:+ LF +:+ LF
                      +:+ "**Page #1. Total pages: 3**")
       ∧ result ≠ Ok (String.substring (Z.to_nat 20000) (Z.to_nat 5000) content
                        +:+ LF +:+ LF +:+ "**Page #3. Total pages: 3**")
       ∧ result ≠ Ok "Error: Page 4 does not exist. Total pages: 3"%string).
Proof.
  intros Hjson Hp Hext HL result.
  assert (Hrun : result = Ok content).
  { subst result.
    rewrite (execute_returns endpoint p d st pg Hjson)
      by (rewrite Hp; reflexivity).
    rewrite Hext, shown_content_some by lia. reflexivity. }
  split; [exact Hrun |]. intros H25. rewrite Hrun.
  split; [| split]; intros Heq; injection Heq as Heq;
    apply (f_equal len) in Heq; rewrite H25 in Heq.
  - rewrite len_append in Heq.
    pose proof (len_substring 0 (Z.to_nat 10000) content).
    change (len (LF +:+ LF +:+ "**Page #1. Total pages: 3**")) with 29 in Heq.
    lia.
  - rewrite len_append in Heq.
    pose proof (len_substring (Z.to_nat 20000) (Z.to_nat 5000) content).
    change (len (LF +:+ LF +:+ "**Page #3. Total pages: 3**")) with 29 in Heq.
    lia.
  - vm_compute in Heq. discriminate.
Qed.

End PaginationClaims.

(** Page 3 of the 25,000-character document is the whole document. *)
Lemma extracted_content_is_never_paginated_witness :
  (FileContentExtractionTool._execute
     (H := Scenario.world (Scenario.page_arguments 3)
             (Some Scenario.document_25000) [] [])
     "http://localhost:8080" (Scenario.params "conv1") Scenario.initial).1
  = Ok Scenario.document_25000.
Proof.
  apply (extracted_content_is_never_paginated
           (H := Scenario.world (Scenario.page_arguments 3)
                   (Some Scenario.document_25000) [] [])
           "http://localhost:8080" (Scenario.params "conv1")
           (Scenario.page_arguments 3) Scenario.initial
           Scenario.document_25000 3 eq_refl
           ltac:(vm_compute; reflexivity) eq_refl
           ltac:(vm_compute; reflexivity)).
Defined.

Section PageRangeClaims.
Context `{Collaborators}.
Import FileContentExtractionTool.

(** C3, as the code behaves: the page is checked only when nothing was
    extracted.  Extracted text is returned whole for every integer page:
    a page below 1 does not give the content of page 1 and a page above
    the total gives no error.  Without extracted text a page below 1 is
    not clamped either: it returns the bare error text, while page 1
    returns the error text followed by the footer. *)
Theorem page_is_checked_only_without_content endpoint p d st pg :
  json_loads (tool_call_arguments p) = Some (Obj d) →
  dict_get_default d "page" (PInt 1) = PInt pg →
  let extracted := extract_text endpoint (api_key p) (dict_get d "file_url") in
  let result := (_execute endpoint p st).1 in
  (∀ content, extracted = Some content → 0 < len content →
     result = Ok content)
  ∧ (truthy_str extracted = false → pg < 1 →
       result = Ok "Error: File content not found."%string)
  ∧ (truthy_str extracted = false → pg = 1 →
       result = Ok ("Error: File content not found." +:+ footer 1 1)%string).
Proof.
  intros Hjson Hp extracted result.
  assert (Hrun : result = Ok (shown_content extracted (PInt pg) pg)).
  { subst result extracted.
    rewrite (execute_returns endpoint p d st pg Hjson)
      by (rewrite Hp; reflexivity).
    by rewrite Hp. }
  rewrite Hrun. split; [| split].
  - intros content -> Hlen. by rewrite shown_content_some.
  - intros Hempty Hpg. unfold shown_content.
    rewrite Hempty, paginate_error_text.
    destruct (Z.ltb_spec pg 1); [reflexivity | lia].
  - intros Hempty ->. unfold shown_content. by rewrite Hempty.
Qed.

(** A page that is not a number is refused by the first comparison. *)
Lemma page_string_raises endpoint p d st s :
  json_loads (tool_call_arguments p) = Some (Obj d) →
  d !! "page" = Some (PStr s) →
  (_execute endpoint p st).1 = Raise TypeError.
Proof.
  intros Hjson Hp. unfold _execute, load_arguments.
  rewrite Hjson. run. unfold dict_get_default. rewrite Hp. reflexivity.
Qed.

End PageRangeClaims.

(** Page 4 of the 25,000-character document is the whole document. *)
Lemma page_is_checked_only_without_content_witness :
  (FileContentExtractionTool._execute
     (H := Scenario.world (Scenario.page_arguments 4)
             (Some Scenario.document_25000) [] [])
     "http://localhost:8080" (Scenario.params "conv1") Scenario.initial).1
  = Ok Scenario.document_25000.
Proof.
  destruct (page_is_checked_only_without_content
              (H := Scenario.world (Scenario.page_arguments 4)
                      (Some Scenario.document_25000) [] [])
              "http://localhost:8080" (Scenario.params "conv1")
              (Scenario.page_arguments 4) Scenario.initial 4 eq_refl
              ltac:(vm_compute; reflexivity))
    as (Hwhole & _).
  apply Hwhole; [reflexivity | vm_compute; reflexivity].
Defined.

(** The failing inputs of C2 and C3 on the 25,000-character document:
    pages 0, 1 and 4 all give the same result, which is neither a page
    with a footer nor the out-of-range error. *)
Example pages_of_the_long_document :
  let run page :=
    (FileContentExtractionTool._execute
       (H := Scenario.world (Scenario.page_arguments page)
               (Some Scenario.document_25000) [] [])
       "http://localhost:8080" (Scenario.params "conv1") Scenario.initial).1 in
  run 0 = run 1 ∧ run 4 = run 1
  ∧ run 4 ≠ Ok "Error: Page 4 does not exist. Total pages: 3"%string.
Proof.
  cbv beta zeta.
  assert (Hrun : ∀ page,
            (FileContentExtractionTool._execute
               (H := Scenario.world (Scenario.page_arguments page)
                       (Some Scenario.document_25000) [] [])
               "http://localhost:8080" (Scenario.params "conv1")
               Scenario.initial).1 = Ok Scenario.document_25000).
  { intros page.
    apply (extracted_content_helper
             (H := Scenario.world (Scenario.page_arguments page)
                     (Some Scenario.document_25000) [] [])
             "http://localhost:8080" (Scenario.params "conv1")
             (Scenario.page_arguments page) Scenario.initial
             Scenario.document_25000 page eq_refl);
      [| reflexivity | vm_compute; reflexivity].
    unfold dict_get_default, Scenario.page_arguments.
    rewrite lookup_insert_ne by done. by rewrite lookup_singleton_eq. }
  rewrite (Hrun 0), (Hrun 1), (Hrun 4).
  split; [reflexivity |]. split; [reflexivity |].
  intros Heq.
  apply (f_equal (λ r, match r with Ok s => len s | Raise _ => 0 end)) in Heq.
  vm_compute in Heq. discriminate.
Qed.

(** ** Streams and the deployment proxy *)

Lemma append_assoc (a b c : string) : (a +:+ b) +:+ c = a +:+ b +:+ c.
Proof.
  induction a as [| ch a IH]; [reflexivity |].
  change (String ch ((a +:+ b) +:+ c) = String ch (a +:+ b +:+ c)).
  f_equal. exact IH.
Qed.

Lemma append_nil_r (a : string) : a +:+ "" = a.
Proof.
  induction a as [| ch a IH]; [reflexivity |].
  change (String ch (a +:+ "") = String ch a).
  f_equal. exact IH.
Qed.

Section MonadFacts.
Context `{Collaborators}.

Lemma for_each_emit {A : Type} (l : list A) (f : A → Event) st :
  for_each l (λ x, emit (f x)) st =
    (Ok tt, {| cache := cache st; trace := trace st ++ (f <$> l) |}).
Proof.
  revert st. induction l as [| x l IH]; intros st.
  - simpl. unfold ret. destruct st. f_equal. simpl. by rewrite app_nil_r.
  - simpl. unfold bind at 1. unfold emit at 1. rewrite IH. simpl.
    by rewrite <- app_assoc.
Qed.

Lemma for_each_add_attachment (atts : list Attachment) st :
  for_each atts add_attachment st =
    (Ok tt, {| cache := cache st;
               trace := trace st ++ (StageAttachment <$> atts) |}).
Proof. apply (for_each_emit atts StageAttachment). Qed.

End MonadFacts.

Section DeploymentFacts.
Context `{C : Collaborators} `{T : DeploymentTool}.
#[local] Arguments for_each : simpl never.

Lemma consume_run acc chunk st :
  Deployment.consume acc chunk st =
    (Ok (acc.1 +:+ increment_text chunk, acc.2 ++ increment_attachments chunk),
     {| cache := cache st; trace := trace st ++ mirrored chunk |}).
Proof.
  destruct acc as [content atts], st as [store events].
  unfold Deployment.consume, mirrored, relayed, increment_text,
    increment_attachments, increment.
  destruct (choices chunk) as [| choice0 rest]; simpl.
  { unfold ret. by rewrite append_nil_r, !app_nil_r. }
  destruct (delta choice0) as [d |]; simpl.
  2: { unfold ret. by rewrite append_nil_r, !app_nil_r. }
  destruct d as [text cc]. simpl.
  destruct text as [[| ch text] |]; simpl;
    destruct cc as [[[ [| a atts'] |]] |]; run_monad; simpl;
    rewrite ?for_each_add_attachment; simpl;
    rewrite ?append_nil_r, ?app_nil_r, <- ?app_assoc; reflexivity.
Qed.

Lemma for_fold_consume stream acc st :
  for_fold stream acc Deployment.consume st =
    (Ok (acc.1 +:+ accumulated_text stream,
         acc.2 ++ accumulated_attachments stream),
     {| cache := cache st;
        trace := trace st ++ concat (mirrored <$> stream) |}).
Proof.
  revert acc st. induction stream as [| chunk stream IH]; intros acc st.
  - simpl. unfold ret. destruct st, acc. simpl.
    by rewrite append_nil_r, !app_nil_r.
  - simpl. unfold bind. rewrite consume_run, IH. simpl.
    by rewrite append_assoc, <- !app_assoc.
Qed.

(** The whole run of the deployment proxy on a payload that parses to a
    dictionary. *)
Lemma deployment_execute_run p d st :
  json_loads (tool_call_arguments p) = Some (Obj d) →
  let request :=
    Deployment.request_of p (dict_get d "prompt") (delete "prompt" d) in
  let stream := completions_create request in
  Deployment._execute p st =
    (Ok {| msg_role := TOOL;
           msg_content := Some (accumulated_text stream);
           msg_custom_content :=
             Some {| attachments := Some (accumulated_attachments stream) |};
           msg_tool_call_id := Some (tool_call_id p) |},
     {| cache := cache st;
        trace := trace st ++ Completion request
                   :: concat (mirrored <$> stream) |}).
Proof.
  intros Hjson request stream.
  unfold Deployment._execute, load_arguments. rewrite Hjson.
  run_monad. fold request. fold stream.
  rewrite for_fold_consume. simpl.
  by rewrite <- app_assoc.
Qed.

Lemma requests_of_app (t1 t2 : list Event) :
  requests_of (t1 ++ t2) = requests_of t1 ++ requests_of t2.
Proof. apply omap_app. Qed.

Lemma choice_of_app (t1 t2 : list Event) :
  choice_of (t1 ++ t2) = choice_of t1 ++ choice_of t2.
Proof. apply omap_app. Qed.

Lemma requests_of_mirrored stream :
  requests_of (concat (mirrored <$> stream)) = [].
Proof.
  induction stream as [| chunk stream IH]; [reflexivity |].
  change (concat (mirrored <$> chunk :: stream))
    with (mirrored chunk ++ concat (mirrored <$> stream)).
  rewrite requests_of_app, IH, app_nil_r.
  unfold mirrored, relayed. rewrite requests_of_app.
  assert (Hatts : ∀ l, requests_of (StageAttachment <$> l) = []).
  { induction l; [reflexivity | assumption]. }
  rewrite Hatts. by destruct (bool_decide _).
Qed.

Lemma choice_of_mirrored stream :
  choice_of (concat (mirrored <$> stream)) = [].
Proof.
  induction stream as [| chunk stream IH]; [reflexivity |].
  change (concat (mirrored <$> chunk :: stream))
    with (mirrored chunk ++ concat (mirrored <$> stream)).
  rewrite choice_of_app, IH, app_nil_r.
  unfold mirrored, relayed. rewrite choice_of_app.
  assert (Hatts : ∀ l, choice_of (StageAttachment <$> l) = []).
  { induction l; [reflexivity | assumption]. }
  rewrite Hatts. by destruct (bool_decide _).
Qed.

(** C7: the prompt is taken out of the arguments and sent as the only
    message, with role user; every other key/value pair is the
    configuration of the one downstream request; the returned message has
    role tool, the text and the attachments of all increments in arrival
    order, and the id of the tool call. *)
Theorem deployment_proxy_forwards_and_accumulates p d st :
  json_loads (tool_call_arguments p) = Some (Obj d) →
  let request :=
    Deployment.request_of p (dict_get d "prompt") (delete "prompt" d) in
  let stream := completions_create request in
  let out := Deployment._execute p st in
  requests_of (trace out.2) = requests_of (trace st) ++ [request]
  ∧ req_messages request = [(USER, default PNone (d !! "prompt"))]
  ∧ (∃ configuration,
       req_configuration request = Some configuration
       ∧ configuration !! "prompt" = None
       ∧ ∀ key, key ≠ "prompt" → configuration !! key = d !! key)
  ∧ out.1 =
      Ok {| msg_role := TOOL;
            msg_content := Some (accumulated_text stream);
            msg_custom_content :=
              Some {| attachments := Some (accumulated_attachments stream) |};
            msg_tool_call_id := Some (tool_call_id p) |}.
Proof.
  intros Hjson request stream out. subst out.
  rewrite (deployment_execute_run p d st Hjson). cbv zeta. simpl.
  fold request. fold stream.
  repeat split.
  - rewrite requests_of_app. f_equal. simpl.
    by rewrite requests_of_mirrored.
  - exists (delete "prompt" d). split; [reflexivity |]. split.
    + apply lookup_delete_eq.
    + intros key Hkey. by apply lookup_delete_ne.
Qed.

(** C10: without a "prompt" key nothing fails at argument handling; the
    request goes out with [None] as the content of the user message and
    the whole payload as configuration. *)
Theorem missing_prompt_is_sent_as_none p d st :
  json_loads (tool_call_arguments p) = Some (Obj d) →
  d !! "prompt" = None →
  let out := Deployment._execute p st in
  (∃ message, out.1 = Ok message)
  ∧ ∃ request,
      requests_of (trace out.2) = requests_of (trace st) ++ [request]
      ∧ req_messages request = [(USER, PNone)]
      ∧ req_configuration request = Some d.
Proof.
  intros Hjson Hprompt out. subst out.
  rewrite (deployment_execute_run p d st Hjson). cbv zeta. simpl.
  split; [eauto |].
  eexists. split.
  - rewrite requests_of_app. f_equal. simpl.
    by rewrite requests_of_mirrored.
  - simpl. unfold dict_get. rewrite Hprompt. split; [reflexivity |].
    by rewrite delete_id.
Qed.

End DeploymentFacts.

Section ImageFacts.
Context `{C : Collaborators}.
Import ImageGenerationTool.
#[local] Arguments for_each : simpl never.

Lemma for_each_render (atts : list Attachment) st :
  for_each atts
    (λ attachment,
       when (is_image attachment) (choice_append_content (render attachment)))
    st =
    (Ok tt, {| cache := cache st;
               trace := trace st
                 ++ (ChoiceContent <$> (render <$> List.filter is_image atts))
            |}).
Proof.
  revert st. induction atts as [| a atts IH]; intros st.
  - unfold for_each, ret. destruct st. simpl. by rewrite app_nil_r.
  - change (for_each (a :: atts) ?f) with
      (bind (f a) (λ _, for_each atts f)).
    unfold bind at 1. simpl List.filter.
    destruct (is_image a); run; rewrite IH; simpl.
    + by rewrite <- app_assoc.
    + reflexivity.
Qed.

Lemma choice_of_choice_content (l : list string) :
  choice_of (ChoiceContent <$> l) = l.
Proof.
  induction l as [| s l IH]; [reflexivity |].
  change (s :: choice_of (ChoiceContent <$> l) = s :: l). by f_equal.
Qed.

Lemma is_image_spec a :
  is_image a = true ↔
  att_type a = Some "image/png"%string ∨ att_type a = Some "image/jpeg"%string.
Proof.
  unfold is_image. rewrite orb_true_iff, !bool_decide_eq_true. reflexivity.
Qed.

(** The whole run of the image tool over the base run. *)
Lemma image_execute_run endpoint p d st :
  json_loads (tool_call_arguments p) = Some (Obj d) →
  let request :=
    Deployment.request_of (T := tool endpoint) p (dict_get d "prompt")
      (delete "prompt" d) in
  let stream := completions_create request in
  let text := accumulated_text stream in
  let atts := accumulated_attachments stream in
  _execute endpoint p st =
    (Ok {| msg_role := TOOL;
           msg_content :=
             Some (match atts, text with
                   | _ :: _, EmptyString => confirmation
                   | _, _ => text
                   end);
           msg_custom_content := Some {| attachments := Some atts |};
           msg_tool_call_id := Some (tool_call_id p) |},
     {| cache := cache st;
        trace := trace st
          ++ Completion request :: concat (mirrored <$> stream)
          ++ (ChoiceContent <$> (render <$> List.filter is_image atts)) |}).
Proof.
  intros Hjson request stream text atts.
  unfold _execute.
  change (mbind ?k ?m) with (bind m k). unfold bind at 1.
  rewrite (deployment_execute_run (T := tool endpoint) p d st Hjson).
  cbv zeta. fold request. fold stream. fold text. fold atts.
  cbn [msg_custom_content msg_content].
  destruct atts as [| a atts'] eqn:Hatts.
  - run. simpl. rewrite app_nil_r. by destruct text.
  - change (mbind ?k ?m) with (bind m k). unfold bind at 1.
    rewrite for_each_render. cbn [cache trace].
    destruct text; cbn [truthy_str]; unfold ret, with_content; simpl;
      rewrite <- !app_assoc; reflexivity.
Qed.

(** C9: the final-answer sink receives one markdown image reference per
    returned attachment of type image/png or image/jpeg, in order, and
    nothing else; the result message keeps every attachment. *)
Theorem only_png_and_jpeg_are_inlined endpoint p d st :
  json_loads (tool_call_arguments p) = Some (Obj d) →
  let request :=
    Deployment.request_of (T := tool endpoint) p (dict_get d "prompt")
      (delete "prompt" d) in
  let atts := accumulated_attachments (completions_create request) in
  let out := _execute endpoint p st in
  choice_of (trace out.2) =
    choice_of (trace st) ++ (render <$> List.filter is_image atts)
  ∧ attachments_of out.1 = Some atts
  ∧ (∀ a, a ∈ List.filter is_image atts ↔
          a ∈ atts ∧ (att_type a = Some "image/png"%string
                      ∨ att_type a = Some "image/jpeg"%string))
  ∧ (∀ a, render a =
          LF +:+ CR +:+ "![image](" +:+ str_opt (att_url a) +:+ ")"
             +:+ LF +:+ CR).
Proof.
  intros Hjson request atts out. subst out.
  rewrite (image_execute_run endpoint p d st Hjson). cbv zeta.
  fold request. fold atts. simpl.
  split; [| split; [reflexivity | split; [| reflexivity]]].
  - rewrite choice_of_app. f_equal.
    change (Completion request :: ?l) with ([Completion request] ++ l).
    rewrite !choice_of_app, choice_of_mirrored, choice_of_choice_content.
    reflexivity.
  - intros a. rewrite !list_elem_of_In, filter_In, is_image_spec.
    reflexivity.
Qed.

(** C8, as the code has it: when the base step produced no text, the
    content becomes the confirmation sentence if at least one attachment
    was returned, and stays empty if none was. *)
Theorem empty_content_is_replaced_when_attachments_exist endpoint p d st :
  json_loads (tool_call_arguments p) = Some (Obj d) →
  let request :=
    Deployment.request_of (T := tool endpoint) p (dict_get d "prompt")
      (delete "prompt" d) in
  let stream := completions_create request in
  accumulated_text stream = ""%string →
  let out := _execute endpoint p st in
  (accumulated_attachments stream ≠ [] → content_of out.1 = Some confirmation)
  ∧ (accumulated_attachments stream = [] → content_of out.1 = Some ""%string).
Proof.
  intros Hjson request stream Htext out. subst out.
  rewrite (image_execute_run endpoint p d st Hjson). cbv zeta.
  fold request. fold stream. rewrite Htext. simpl.
  split; intros Hatts.
  - by destruct (accumulated_attachments stream).
  - by rewrite Hatts.
Qed.

End ImageFacts.

Section RetrievalFacts.
Context `{C : Collaborators}.
Import RagTool.

Lemma insert_ranked_perm q x l : insert_ranked q x l ≡ₚ x :: l.
Proof.
  induction l as [| y l IH]; [reflexivity |].
  simpl. destruct (l2_le q x.2 y.2); [reflexivity |].
  rewrite IH. apply Permutation_swap.
Qed.

Lemma ranked_sorted_perm q (l : list (nat * Vec)) :
  foldr (insert_ranked q) [] l ≡ₚ l.
Proof.
  induction l as [| x l IH]; [reflexivity |].
  simpl. rewrite insert_ranked_perm. by rewrite IH.
Qed.

Lemma length_ranked index q : length (ranked index q) = length index.
Proof.
  unfold ranked. rewrite length_fmap.
  rewrite (Permutation_length (ranked_sorted_perm q _)).
  apply length_imap.
Qed.

Lemma ranked_in_range index q i :
  i ∈ ranked index q → (i < length index)%nat.
Proof.
  unfold ranked. intros Hin.
  apply list_elem_of_fmap in Hin as ([j v] & -> & Hin).
  rewrite ranked_sorted_perm in Hin.
  apply elem_of_lookup_imap in Hin as (k & w & Heq & Hk).
  injection Heq as -> ->. simpl.
  by apply lookup_lt_Some in Hk.
Qed.

Lemma length_search index q k : length (search index q k) = k.
Proof.
  unfold search.
  rewrite length_app, length_fmap, length_replicate, length_take. lia.
Qed.

Lemma collect_app {A : Type} (l1 l2 : list (result A)) xs ys :
  collect l1 = Ok xs → collect l2 = Ok ys → collect (l1 ++ l2) = Ok (xs ++ ys).
Proof.
  revert xs. induction l1 as [| r l1 IH]; intros xs H1 H2.
  - injection H1 as <-. exact H2.
  - simpl in *. destruct r as [x | e]; [| discriminate].
    destruct (collect l1) as [xs' | e] eqn:Hc; [| discriminate].
    injection H1 as <-. by rewrite (IH xs' eq_refl H2).
Qed.

Lemma collect_replicate {A : Type} n (x : A) :
  collect (replicate n (Ok x)) = Ok (replicate n x).
Proof.
  induction n as [| n IH]; [reflexivity |].
  cbn [replicate collect]. by rewrite IH.
Qed.

Lemma getitem_nat {A : Type} (l : list A) (i : nat) x :
  l !! i = Some x → getitem l (Z.of_nat i) = Ok x.
Proof.
  intros Hx. pose proof (lookup_lt_Some _ _ _ Hx).
  unfold getitem.
  destruct (Z.ltb_spec (Z.of_nat i) 0); [lia |].
  destruct (Z.ltb_spec (Z.of_nat i) 0); [lia |].
  destruct (Z.leb_spec (Z.of_nat (length l)) (Z.of_nat i)); [lia |].
  simpl. by rewrite Nat2Z.id, Hx.
Qed.

Lemma collect_getitem {A : Type} (l : list A) (positions : list nat) :
  Forall (λ i, (i < length l)%nat) positions →
  ∃ xs, collect (getitem l <$> (Z.of_nat <$> positions)) = Ok xs
        ∧ length xs = length positions.
Proof.
  induction 1 as [| i positions Hi _ (xs & Hxs & Hlen)].
  - by exists [].
  - destruct (lookup_lt_is_Some_2 l i Hi) as [x Hx].
    exists (x :: xs). rewrite !fmap_cons. cbn [collect].
    rewrite (getitem_nat l i x Hx), Hxs.
    split; [reflexivity | simpl; by rewrite Hlen].
Qed.

(** [l[-1]] is the last element. *)
Lemma getitem_minus_one {A : Type} (l : list A) x :
  last l = Some x → getitem l (-1) = Ok x.
Proof.
  intros Hlast. rewrite last_lookup in Hlast.
  assert (0 < length l)%nat.
  { destruct l; [discriminate | simpl; lia]. }
  unfold getitem. simpl.
  destruct (Z.ltb_spec (-1 + Z.of_nat (length l)) 0); [lia |].
  destruct (Z.leb_spec (Z.of_nat (length l)) (-1 + Z.of_nat (length l)));
    [lia |].
  simpl. replace (Z.to_nat (-1 + Z.of_nat (length l))) with (pred (length l))
    by lia.
  by rewrite Hlast.
Qed.

(** C1, as the code behaves: the retrieval step on an index that holds one
    vector per chunk always yields three entries and raises nothing.  With
    fewer than three chunks the missing places are filled with the last
    chunk, because the padding label [-1] is used as a list position; the
    result then has more entries than there are chunks. *)
Theorem retrieval_pads_with_last_chunk index chunks q st last_chunk :
  length index = length chunks →
  last chunks = Some last_chunk →
  ∃ found,
    (retrieve index chunks q st).1 =
      Ok (found ++ replicate (3 - length chunks) last_chunk)
    ∧ length found = min 3 (length chunks)
    ∧ length (found ++ replicate (3 - length chunks) last_chunk) = 3%nat.
Proof.
  intros Hlen Hlast.
  assert (0 < length chunks)%nat.
  { destruct chunks; [discriminate | simpl; lia]. }
  destruct (collect_getitem chunks (take 3 (ranked index q))) as (found & Hf & Hl).
  { apply Forall_forall. intros i Hin.
    apply elem_of_take in Hin as (j & Hin & _).
    apply list_elem_of_lookup_2 in Hin.
    rewrite <- Hlen. by apply ranked_in_range in Hin. }
  rewrite length_take, length_ranked, Hlen in Hl.
  exists found. split; [| split; [assumption |]].
  - unfold retrieve. run. unfold search.
    rewrite fmap_app, fmap_replicate, (getitem_minus_one _ _ Hlast).
    rewrite length_take, length_ranked, Hlen.
    rewrite (collect_app _ _ found (replicate (3 - 3 `min` length chunks) last_chunk) Hf (collect_replicate _ _)).
    do 3 f_equal. lia.
  - rewrite length_app, length_replicate. lia.
Qed.

End RetrievalFacts.

Section RagFacts.
Context `{C : Collaborators}.
Import RagTool.

Lemma rag_consume_run response chunk st :
  consume response chunk st =
    (Ok (response +:+ increment_text chunk),
     {| cache := cache st; trace := trace st ++ relayed chunk |}).
Proof.
  destruct st as [store events].
  unfold consume, relayed, increment_text, increment.
  destruct (choices chunk) as [| choice0 rest]; simpl.
  { unfold ret. by rewrite append_nil_r, app_nil_r. }
  destruct (delta choice0) as [[[[| ch text] |] cc] |]; run; simpl;
    by rewrite ?append_nil_r, ?app_nil_r.
Qed.

Lemma rag_for_fold_consume stream response st :
  for_fold stream response consume st =
    (Ok (response +:+ accumulated_text stream),
     {| cache := cache st;
        trace := trace st ++ concat (relayed <$> stream) |}).
Proof.
  revert response st.
  induction stream as [| chunk stream IH]; intros response st.
  - simpl. unfold ret. destruct st. simpl.
    by rewrite append_nil_r, app_nil_r.
  - simpl. unfold bind. rewrite rag_consume_run, IH. simpl.
    by rewrite append_assoc, <- app_assoc.
Qed.

Lemma quiet_relayed stream :
  forallb quiet (concat (relayed <$> stream)) = true.
Proof.
  induction stream as [| chunk stream IH]; [reflexivity |].
  change (concat (relayed <$> chunk :: stream))
    with (relayed chunk ++ concat (relayed <$> stream)).
  rewrite forallb_app, IH. unfold relayed.
  by destruct (bool_decide _).
Qed.

(** The generation step only writes to the stage, embeds the query,
    searches and calls the deployment; it leaves the cache alone. *)
Lemma answer_effects endpoint deployment p request index chunks st :
  ∃ events,
    (answer endpoint deployment p request index chunks st).2 =
      {| cache := cache st; trace := trace st ++ events |}
    ∧ forallb quiet events = true.
Proof.
  destruct st as [store t].
  destruct request as [| b | z | s];
    try (exists []; simpl; by rewrite app_nil_r).
  unfold answer, retrieve. run_monad.
  destruct (collect _) as [retrieved | e].
  - rewrite rag_for_fold_consume. simpl. eexists. split.
    + rewrite <- !app_assoc. simpl. reflexivity.
    + simpl. apply quiet_relayed.
  - eexists. split.
    + rewrite <- !app_assoc. simpl. reflexivity.
    + reflexivity.
Qed.

Lemma quiet_no_document_work events :
  forallb quiet events = true → List.filter document_work events = [].
Proof.
  induction events as [| e events IH]; [reflexivity |].
  simpl. intros [He Hq]%andb_true_iff.
  rewrite (IH Hq). by destruct e.
Qed.

Lemma quiet_no_cache_reads events :
  forallb quiet events = true → cache_reads events = [].
Proof.
  induction events as [| e events IH]; [reflexivity |].
  simpl. intros [He Hq]%andb_true_iff.
  destruct e; try discriminate; exact (IH Hq).
Qed.

Lemma cache_reads_app (t1 t2 : list Event) :
  cache_reads (t1 ++ t2) = cache_reads t1 ++ cache_reads t2.
Proof. apply omap_app. Qed.

(** The run on a cache hit: the generation step on the cached pair. *)
Lemma execute_hit endpoint deployment p d st index chunks :
  json_loads (tool_call_arguments p) = Some (Obj d) →
  let request := dict_get d "request" in
  let file_url := dict_get d "file_url" in
  let key := cache_document_key (conversation_id p) file_url in
  cache st !! key = Some (index, chunks) →
  _execute endpoint deployment p st =
    answer endpoint deployment p request index chunks
      {| cache := cache st;
         trace := trace st ++ request_header request file_url
                    ++ [CacheGet key] |}.
Proof.
  intros Hjson request file_url key Hhit.
  destruct st as [store t]. simpl in Hhit.
  unfold _execute, load_arguments, DocumentCache.get. rewrite Hjson.
  run_monad. fold request. fold file_url. fold key. rewrite Hhit.
  rewrite <- !app_assoc. reflexivity.
Qed.

(** The run on a cache miss when extraction gives no text. *)
Lemma execute_no_text endpoint deployment p d st :
  json_loads (tool_call_arguments p) = Some (Obj d) →
  let request := dict_get d "request" in
  let file_url := dict_get d "file_url" in
  let key := cache_document_key (conversation_id p) file_url in
  cache st !! key = None →
  truthy_str (extract_text endpoint (api_key p) file_url) = false →
  _execute endpoint deployment p st =
    (Ok "Error: File content not found."%string,
     {| cache := cache st;
        trace := trace st ++ request_header request file_url
                   ++ [CacheGet key;
                       ExtractText endpoint (api_key p) file_url;
                       StageContent
                         "No text content could be extracted from the file."]
     |}).
Proof.
  intros Hjson request file_url key Hmiss Hempty.
  destruct st as [store t]. simpl in Hmiss.
  unfold _execute, load_arguments, DocumentCache.get. rewrite Hjson.
  run_monad. fold request. fold file_url. fold key. rewrite Hmiss.
  rewrite Hempty. rewrite <- !app_assoc. reflexivity.
Qed.

(** The run on a cache miss when extraction gives text. *)
Lemma execute_miss endpoint deployment p d st text :
  json_loads (tool_call_arguments p) = Some (Obj d) →
  let request := dict_get d "request" in
  let file_url := dict_get d "file_url" in
  let key := cache_document_key (conversation_id p) file_url in
  cache st !! key = None →
  extract_text endpoint (api_key p) file_url = Some text →
  truthy_str (Some text) = true →
  let chunks := split_text text in
  let index := encode <$> chunks in
  _execute endpoint deployment p st =
    answer endpoint deployment p request index chunks
      {| cache := evict (<[key := (index, chunks)]> (cache st));
         trace := trace st ++ request_header request file_url
                    ++ [CacheGet key;
                        ExtractText endpoint (api_key p) file_url;
                        SplitText text; EncodeChunks chunks;
                        IndexAdd (length index); CacheSet key] |}.
Proof.
  intros Hjson request file_url key Hmiss Htext Htruthy chunks index.
  destruct st as [store t]. simpl in Hmiss.
  unfold _execute, load_arguments, DocumentCache.get, DocumentCache.set.
  rewrite Hjson.
  run_monad. fold request. fold file_url. fold key. rewrite Hmiss.
  rewrite Htext, Htruthy. cbn [default]. fold chunks.
  rewrite <- !app_assoc. reflexivity.
Qed.

(** Every run looks up exactly one cache key: its own. *)
Lemma execute_reads_own_key endpoint deployment p d st :
  json_loads (tool_call_arguments p) = Some (Obj d) →
  cache_reads (trace (_execute endpoint deployment p st).2) =
    cache_reads (trace st)
      ++ [cache_document_key (conversation_id p) (dict_get d "file_url")].
Proof.
  intros Hjson.
  set (key := cache_document_key (conversation_id p) (dict_get d "file_url")).
  destruct (cache st !! key) as [[index chunks] |] eqn:Hkey.
  - rewrite (execute_hit endpoint deployment p d st index chunks Hjson Hkey).
    match goal with
    | |- context [answer ?e ?dn ?p ?r ?i ?c ?s] =>
        destruct (answer_effects e dn p r i c s) as (events & Heff & Hquiet)
    end.
    rewrite Heff.
    cbn [trace]. rewrite !cache_reads_app, (quiet_no_cache_reads _ Hquiet).
    by rewrite app_nil_r.
  - destruct (truthy_str (extract_text endpoint (api_key p)
                            (dict_get d "file_url"))) eqn:Htruthy.
    + destruct (extract_text endpoint (api_key p) (dict_get d "file_url"))
        as [text |] eqn:Htext; [| discriminate].
      rewrite (execute_miss endpoint deployment p d st text Hjson Hkey Htext
                 Htruthy).
      match goal with
      | |- context [answer ?e ?dn ?p ?r ?i ?c ?s] =>
          destruct (answer_effects e dn p r i c s) as (events & Heff & Hquiet)
      end.
      rewrite Heff.
      cbn [trace]. rewrite !cache_reads_app, (quiet_no_cache_reads _ Hquiet).
      by rewrite app_nil_r.
    + rewrite (execute_no_text endpoint deployment p d st Hjson Hkey Htruthy).
      cbn [snd trace]. by rewrite !cache_reads_app.
Qed.

End RagFacts.

Section CacheKeyFacts.
Import RagTool.

Lemma append_cons ch (a b : string) : String ch a +:+ b = String ch (a +:+ b).
Proof. reflexivity. Qed.

Lemma append_inv_tail (a b s : string) : a +:+ s = b +:+ s → a = b.
Proof.
  assert (Hlist : ∀ x y, list_ascii_of_string (x +:+ y) =
                         list_ascii_of_string x ++ list_ascii_of_string y).
  { induction x as [| ch x IH]; intros y; [reflexivity |].
    rewrite append_cons. simpl. by rewrite IH. }
  intros Heq. apply (f_equal list_ascii_of_string) in Heq.
  rewrite !Hlist in Heq. apply app_inv_tail in Heq.
  apply (f_equal string_of_list_ascii) in Heq.
  by rewrite !string_of_list_ascii_of_string in Heq.
Qed.

Lemma separator_splits (c1 c2 r1 r2 : string) :
  has_separator c1 = false → has_separator c2 = false →
  c1 +:+ String "_" r1 = c2 +:+ String "_" r2 →
  c1 = c2 ∧ r1 = r2.
Proof.
  revert c2. induction c1 as [| a c1 IH]; intros [| b c2] H1 H2 Heq.
  - injection Heq as ->. done.
  - rewrite append_cons in Heq. injection Heq as <- _.
    simpl in H2. discriminate.
  - rewrite append_cons in Heq. injection Heq as -> _.
    simpl in H1. discriminate.
  - rewrite !append_cons in Heq. injection Heq as -> Heq.
    simpl in H1, H2. apply orb_false_iff in H1 as [_ H1].
    apply orb_false_iff in H2 as [_ H2].
    destruct (IH c2 H1 H2 Heq) as [-> ->]. done.
Qed.

Lemma cache_document_key_same_url c1 c2 u :
  cache_document_key c1 u = cache_document_key c2 u → c1 = c2.
Proof. unfold cache_document_key. apply append_inv_tail. Qed.

Lemma cache_document_key_separator_free c1 c2 u1 u2 :
  has_separator c1 = false → has_separator c2 = false →
  cache_document_key c1 u1 = cache_document_key c2 u2 →
  c1 = c2 ∧ str u1 = str u2.
Proof. unfold cache_document_key. apply separator_splits. Qed.

End CacheKeyFacts.

Section RagClaims.
Context `{C : Collaborators}.
Import RagTool.

(** C5: on a cache miss, when extraction yields no text ([None] or the empty
    string), the tool returns "Error: File content not found." at once; the
    cache is left as it was, nothing is stored under the key, and no
    splitting, embedding, index construction or cache write takes place. *)
Theorem no_text_is_reported_and_nothing_is_cached endpoint deployment p d st :
  json_loads (tool_call_arguments p) = Some (Obj d) →
  let file_url := dict_get d "file_url" in
  let key := cache_document_key (conversation_id p) file_url in
  cache st !! key = None →
  truthy_str (extract_text endpoint (api_key p) file_url) = false →
  let out := _execute endpoint deployment p st in
  out.1 = Ok "Error: File content not found."%string
  ∧ cache out.2 = cache st
  ∧ cache out.2 !! key = None
  ∧ List.filter builds_index (trace out.2) = List.filter builds_index (trace st)
  ∧ requests_of (trace out.2) = requests_of (trace st).
Proof.
  intros Hjson file_url key Hmiss Hempty out. subst out.
  rewrite (execute_no_text endpoint deployment p d st Hjson Hmiss Hempty).
  cbn [fst snd cache trace].
  split; [reflexivity |]. split; [reflexivity |]. split; [exact Hmiss |].
  split.
  - rewrite !List.filter_app. simpl. by rewrite app_nil_r.
  - rewrite !requests_of_app. simpl. by rewrite app_nil_r.
Qed.

(** C6: on a cache hit the run is the generation step on the cached index
    and chunks; it extracts no text, splits nothing, embeds no chunks, adds
    nothing to an index and writes nothing to the cache. *)
Theorem cache_hit_reuses_the_cached_pair endpoint deployment p d st
    index chunks :
  json_loads (tool_call_arguments p) = Some (Obj d) →
  let request := dict_get d "request" in
  let file_url := dict_get d "file_url" in
  let key := cache_document_key (conversation_id p) file_url in
  cache st !! key = Some (index, chunks) →
  let out := _execute endpoint deployment p st in
  out = answer endpoint deployment p request index chunks
          {| cache := cache st;
             trace := trace st ++ request_header request file_url
                        ++ [CacheGet key] |}
  ∧ cache out.2 = cache st
  ∧ List.filter document_work (trace out.2)
      = List.filter document_work (trace st).
Proof.
  intros Hjson request file_url key Hhit out. subst out.
  rewrite (execute_hit endpoint deployment p d st index chunks Hjson Hhit).
  fold request. fold file_url. fold key.
  split; [reflexivity |].
  match goal with
  | |- context [answer ?e ?dn ?p ?r ?i ?c ?s] =>
      destruct (answer_effects e dn p r i c s) as (events & Heff & Hquiet)
  end.
  rewrite Heff. cbn [cache trace snd]. split; [reflexivity |].
  rewrite !List.filter_app, (quiet_no_document_work _ Hquiet).
  simpl. by rewrite !app_nil_r.
Qed.

(** C4, as the code has it: a run looks up exactly the key built from its
    own conversation id and document URL, and this key differs from the key
    of any other conversation for the same URL, and for any URL when
    neither conversation id contains the separator. *)
Theorem other_conversations_use_other_keys endpoint deployment p d st c2 u2 :
  json_loads (tool_call_arguments p) = Some (Obj d) →
  conversation_id p ≠ c2 →
  dict_get d "file_url" = u2
    ∨ (has_separator (conversation_id p) = false
       ∧ has_separator c2 = false) →
  let key := cache_document_key (conversation_id p) (dict_get d "file_url") in
  key ≠ cache_document_key c2 u2
  ∧ cache_reads (trace (_execute endpoint deployment p st).2)
      = cache_reads (trace st) ++ [key].
Proof.
  intros Hjson Hconv Hcases key. split.
  - intros Heq. subst key. destruct Hcases as [<- | [H1 H2]].
    + by apply cache_document_key_same_url in Heq.
    + by apply cache_document_key_separator_free in Heq as [? _].
  - by apply execute_reads_own_key.
Qed.

End RagClaims.

(** C4 as stated fails: a conversation id that contains the separator. *)
Lemma separator_in_conversation_id_collides :
  "a"%string ≠ "a_b"%string
  ∧ RagTool.cache_document_key "a" (PStr "b_c")
    = RagTool.cache_document_key "a_b" (PStr "c").
Proof. split; [discriminate | reflexivity]. Qed.

Lemma other_conversations_use_other_keys_witness :
  RagScenario.key ≠ RagTool.cache_document_key "conv2" (PStr "files/policy.txt")
  ∧ cache_reads
      (trace (RagTool._execute (H := RagScenario.readable)
                "http://localhost:8080" "gpt-4o" (Scenario.params "conv1")
                RagScenario.cached).2)
    = [RagScenario.key].
Proof.
  apply (other_conversations_use_other_keys (C := RagScenario.readable)
           "http://localhost:8080" "gpt-4o" (Scenario.params "conv1")
           RagScenario.arguments RagScenario.cached "conv2"
           (PStr "files/policy.txt")).
  - reflexivity.
  - discriminate.
  - left. vm_compute. reflexivity.
Defined.

Lemma no_text_is_reported_and_nothing_is_cached_witness :
  let out :=
    RagTool._execute (H := RagScenario.unreadable) "http://localhost:8080"
      "gpt-4o" (Scenario.params "conv1") Scenario.initial in
  out.1 = Ok "Error: File content not found."%string
  ∧ cache out.2 = ∅.
Proof.
  destruct (no_text_is_reported_and_nothing_is_cached
              (C := RagScenario.unreadable) "http://localhost:8080" "gpt-4o"
              (Scenario.params "conv1") RagScenario.arguments Scenario.initial
              eq_refl ltac:(vm_compute; reflexivity) eq_refl)
    as (Hresult & Hcache & _).
  split; assumption.
Defined.

Lemma cache_hit_reuses_the_cached_pair_witness :
  let out :=
    RagTool._execute (H := RagScenario.readable) "http://localhost:8080"
      "gpt-4o" (Scenario.params "conv1") RagScenario.cached in
  cache out.2 = cache RagScenario.cached
  ∧ List.filter document_work (trace out.2) = [].
Proof.
  destruct (cache_hit_reuses_the_cached_pair
              (C := RagScenario.readable) "http://localhost:8080" "gpt-4o"
              (Scenario.params "conv1") RagScenario.arguments
              RagScenario.cached [27; 12]
              ["Refunds within thirty days."%string; "Ask support."%string]
              eq_refl ltac:(vm_compute; reflexivity))
    as (_ & Hcache & Hwork).
  split; assumption.
Defined.

(** The cached two-chunk document of the scenario: three chunks come back,
    the last one twice. *)
Lemma retrieval_pads_with_last_chunk_witness :
  ∃ found,
    (RagTool.retrieve (H := RagScenario.readable) [27; 12]
       ["Refunds within thirty days."%string; "Ask support."%string] 26
       RagScenario.cached).1
      = Ok (found ++ ["Ask support."%string])
    ∧ length found = 2%nat
    ∧ length (found ++ ["Ask support."%string]) = 3%nat.
Proof.
  apply (retrieval_pads_with_last_chunk (C := RagScenario.readable) [27; 12]
           ["Refunds within thirty days."%string; "Ask support."%string] 26
           RagScenario.cached "Ask support." eq_refl eq_refl).
Defined.

Example retrieval_on_two_chunks :
  (RagTool.retrieve (H := RagScenario.readable) [27; 12]
     ["Refunds within thirty days."%string; "Ask support."%string] 26
     RagScenario.cached).1
  = Ok ["Refunds within thirty days."%string; "Ask support."%string;
        "Ask support."%string].
Proof. vm_compute. reflexivity. Qed.

(** The whole run on the cached two-chunk document: the prompt sent to the
    deployment carries three chunks. *)
Example execute_on_cached_two_chunks :
  let out :=
    RagTool._execute (H := RagScenario.readable) "http://localhost:8080"
      "gpt-4o" (Scenario.params "conv1") RagScenario.cached in
  out.1 = Ok "Thirty days."%string
  ∧ (req_messages <$> requests_of (trace out.2))
    = [[(SYSTEM, PStr RagTool._SYSTEM_PROMPT);
        (USER, PStr (RagTool.augmentation (PStr "What is the refund policy?")
                       ["Refunds within thirty days."%string;
                        "Ask support."%string; "Ask support."%string]))]].
Proof. cbv zeta. split; vm_compute; reflexivity. Qed.

(** ** Deployment proxy and image tool on concrete streams *)

Lemma deployment_proxy_forwards_and_accumulates_witness :
  let out :=
    Deployment._execute (C := ImageScenario.talking)
      (T := ImageGenerationTool.tool "http://localhost:8080")
      (Scenario.params "conv1") Scenario.initial in
  out.1 =
    Ok {| msg_role := TOOL;
          msg_content := Some "Here you go"%string;
          msg_custom_content :=
            Some {| attachments :=
                      Some [ImageScenario.png; ImageScenario.notes;
                            ImageScenario.jpeg] |};
          msg_tool_call_id := Some "call_1"%string |}
  ∧ (req_messages <$> requests_of (trace out.2))
    = [[(USER, PStr "A lighthouse at dawn")]]
  ∧ (req_configuration <$> requests_of (trace out.2))
    = [Some {[ "size" := PStr "1024x1024"; "quality" := PStr "hd" ]}].
Proof.
  destruct (deployment_proxy_forwards_and_accumulates
              (C := ImageScenario.talking)
              (T := ImageGenerationTool.tool "http://localhost:8080")
              (Scenario.params "conv1") ImageScenario.arguments
              Scenario.initial eq_refl)
    as (Hrequests & _ & _ & Hresult).
  cbv zeta. rewrite Hresult, Hrequests.
  split; [reflexivity |]. split; [reflexivity |].
  vm_compute. reflexivity.
Defined.

Lemma missing_prompt_is_sent_as_none_witness :
  let out :=
    Deployment._execute (C := ImageScenario.promptless)
      (T := ImageGenerationTool.tool "http://localhost:8080")
      (Scenario.params "conv1") Scenario.initial in
  (∃ message, out.1 = Ok message)
  ∧ ∃ request,
      requests_of (trace out.2) = [request]
      ∧ req_messages request = [(USER, PNone)]
      ∧ req_configuration request = Some ImageScenario.arguments_without_prompt.
Proof.
  apply (missing_prompt_is_sent_as_none
           (C := ImageScenario.promptless)
           (T := ImageGenerationTool.tool "http://localhost:8080")
           (Scenario.params "conv1") ImageScenario.arguments_without_prompt
           Scenario.initial eq_refl).
  vm_compute. reflexivity.
Defined.

Lemma only_png_and_jpeg_are_inlined_witness :
  let out :=
    ImageGenerationTool._execute (H := ImageScenario.talking)
      "http://localhost:8080" (Scenario.params "conv1") Scenario.initial in
  choice_of (trace out.2)
    = [ImageGenerationTool.render ImageScenario.png;
       ImageGenerationTool.render ImageScenario.jpeg]
  ∧ attachments_of out.1
    = Some [ImageScenario.png; ImageScenario.notes; ImageScenario.jpeg].
Proof.
  destruct (only_png_and_jpeg_are_inlined (C := ImageScenario.talking)
              "http://localhost:8080" (Scenario.params "conv1")
              ImageScenario.arguments Scenario.initial eq_refl)
    as (Hchoice & Hatts & _).
  cbv zeta. rewrite Hchoice, Hatts. split; reflexivity.
Defined.

Lemma empty_content_is_replaced_when_attachments_exist_witness :
  content_of
    (ImageGenerationTool._execute (H := ImageScenario.silent)
       "http://localhost:8080" (Scenario.params "conv1") Scenario.initial).1
  = Some ImageGenerationTool.confirmation.
Proof.
  destruct (empty_content_is_replaced_when_attachments_exist
              (C := ImageScenario.silent) "http://localhost:8080"
              (Scenario.params "conv1") ImageScenario.arguments
              Scenario.initial eq_refl eq_refl)
    as (Hsome & _).
  apply Hsome. discriminate.
Defined.

(** C8 as stated fails: a stream that carries neither text nor
    attachments.  The base step produces no text, and the image tool
    returns the empty content. *)
Lemma empty_stream_keeps_empty_content :
  content_of
    (Deployment._execute (C := ImageScenario.empty)
       (T := ImageGenerationTool.tool "http://localhost:8080")
       (Scenario.params "conv1") Scenario.initial).1
  = Some ""%string
  ∧ content_of
      (ImageGenerationTool._execute (H := ImageScenario.empty)
         "http://localhost:8080" (Scenario.params "conv1") Scenario.initial).1
    ≠ Some ImageGenerationTool.confirmation.
Proof. split; [reflexivity | vm_compute; discriminate]. Qed.

(** * Further properties *)

(** ** File content extraction: transcript and missing content *)

Section FileToolRun.
Context `{Collaborators}.
Import FileContentExtractionTool.

(** The whole run of the file tool on an integer page. *)
Lemma file_execute_run endpoint p d st pg :
  json_loads (tool_call_arguments p) = Some (Obj d) →
  as_int (dict_get_default d "page" (PInt 1)) = Ok pg →
  let file_url := dict_get d "file_url" in
  let page := dict_get_default d "page" (PInt 1) in
  let result :=
    shown_content (extract_text endpoint (api_key p) file_url) page pg in
  _execute endpoint p st =
    (Ok result,
     {| cache := cache st;
        trace := trace st
          ++ [StageContent ("## Request arguments: " +:+ LF);
              StageContent ("**File URL**: " +:+ str file_url +:+ LF +:+ CR)]
          ++ (if 1 <? pg
              then [StageContent ("**Page**: " +:+ str page +:+ LF +:+ CR)]
              else [])
          ++ [StageContent ("## Response: " +:+ LF);
              ExtractText endpoint (api_key p) file_url;
              StageContent (fenced result)] |}).
Proof.
  intros Hjson Hpg file_url page result. subst file_url page result.
  unfold _execute, load_arguments, shown_content. rewrite Hjson.
  run. rewrite Hpg. run.
  destruct (truthy_str _); destruct (1 <? pg); cbv beta iota;
    rewrite <- !app_assoc; reflexivity.
Qed.

(** X2: what the file tool does besides returning its text.  It
    leaves the cache alone, issues no downstream request, writes nothing
    to the final-answer sink, and appends to the stage the two argument
    lines, the page line only for a page above 1, the response header and,
    last, the returned text in a fenced block. *)
Theorem file_tool_transcript endpoint p d st pg :
  json_loads (tool_call_arguments p) = Some (Obj d) →
  as_int (dict_get_default d "page" (PInt 1)) = Ok pg →
  let file_url := dict_get d "file_url" in
  let page := dict_get_default d "page" (PInt 1) in
  let out := _execute endpoint p st in
  ∃ result added,
    out.1 = Ok result
    ∧ trace out.2 = trace st ++ added
    ∧ stage_text added
      = [("## Request arguments: " +:+ LF)%string;
         ("**File URL**: " +:+ str file_url +:+ LF +:+ CR)%string]
        ++ (if 1 <? pg then [("**Page**: " +:+ str page +:+ LF +:+ CR)%string]
            else [])
        ++ [("## Response: " +:+ LF)%string; fenced result]
    ∧ requests_of added = []
    ∧ choice_of added = []
    ∧ cache out.2 = cache st.
Proof.
  intros Hjson Hpg file_url page out. subst out.
  rewrite (file_execute_run endpoint p d st pg Hjson Hpg). cbv zeta.
  do 2 eexists. cbn [fst snd cache trace].
  split; [reflexivity |]. split; [reflexivity |].
  destruct (1 <? pg); repeat split; reflexivity.
Qed.

Lemma last_stage_text (t : list Event) s :
  last (stage_text (t ++ [StageContent s])) = Some s.
Proof. unfold stage_text. rewrite omap_app. apply last_snoc. Qed.

(** X3: when nothing can be extracted the error text itself goes through
    the pagination block.  Page 1 returns "Error: File content not found."
    followed by the footer "Page #1. Total pages: 1", a page above 1
    returns the out-of-range error citing 1 page, and a page below 1
    returns the bare error text; in each case the result is shown fenced
    as the last stage entry and the cache is unchanged. *)
Theorem missing_content_goes_through_pagination endpoint p d st pg :
  json_loads (tool_call_arguments p) = Some (Obj d) →
  dict_get_default d "page" (PInt 1) = PInt pg →
  truthy_str (extract_text endpoint (api_key p) (dict_get d "file_url"))
    = false →
  let out := _execute endpoint p st in
  let result :=
    if pg <? 1 then "Error: File content not found."%string
    else if 1 <? pg then page_error pg 1
    else ("Error: File content not found." +:+ footer 1 1)%string in
  out.1 = Ok result
  ∧ last (stage_text (trace out.2)) = Some (fenced result)
  ∧ cache out.2 = cache st.
Proof.
  intros Hjson Hp Hempty out result. subst out result.
  rewrite (file_execute_run endpoint p d st pg Hjson)
    by (rewrite Hp; reflexivity).
  unfold shown_content. rewrite Hempty, Hp, paginate_error_text.
  cbn [fst snd cache trace]. split; [reflexivity |]. split; [| reflexivity].
  match goal with
  | |- context [[?a; ?b; ?c]] => change [a; b; c] with ([a; b] ++ [c])
  end.
  rewrite !app_assoc. apply last_stage_text.
Qed.

End FileToolRun.

Lemma file_tool_transcript_witness :
  let out :=
    FileContentExtractionTool._execute
      (H := Scenario.world (Scenario.page_arguments 2) (Some "abc") [] [])
      "http://localhost:8080" (Scenario.params "conv1") Scenario.initial in
  ∃ result added,
    out.1 = Ok result
    ∧ trace out.2 = [] ++ added
    ∧ stage_text added
      = [("## Request arguments: " +:+ LF)%string;
         ("**File URL**: files/report.txt" +:+ LF +:+ CR)%string;
         ("**Page**: 2" +:+ LF +:+ CR)%string;
         ("## Response: " +:+ LF)%string; fenced result]
    ∧ requests_of added = []
    ∧ choice_of added = []
    ∧ cache out.2 = ∅.
Proof.
  apply (file_tool_transcript
           (H := Scenario.world (Scenario.page_arguments 2) (Some "abc")
                   [] [])
           "http://localhost:8080" (Scenario.params "conv1")
           (Scenario.page_arguments 2) Scenario.initial 2 eq_refl
           ltac:(vm_compute; reflexivity)).
Defined.

Lemma missing_content_goes_through_pagination_witness :
  (FileContentExtractionTool._execute
     (H := Scenario.world (Scenario.page_arguments 99) None [] [])
     "http://localhost:8080" (Scenario.params "conv1") Scenario.initial).1
  = Ok "Error: Page 99 does not exist. Total pages: 1"%string.
Proof.
  apply (missing_content_goes_through_pagination
           (H := Scenario.world (Scenario.page_arguments 99) None [] [])
           "http://localhost:8080" (Scenario.params "conv1")
           (Scenario.page_arguments 99) Scenario.initial 99 eq_refl
           ltac:(vm_compute; reflexivity) eq_refl).
Defined.

(** ** Argument payloads that do not parse to a dictionary *)

Section ParseFailures.
Context `{C : Collaborators} `{T : DeploymentTool}.

(** X4: a payload that is not JSON raises [JSONDecodeError], and a JSON
    payload that is not an object raises [AttributeError] at the first
    [.get]; in the file tool, the RAG tool, the deployment proxy and the
    image tool this happens before anything is written to a sink, looked
    up in the cache, extracted or requested: the state is untouched. *)
Theorem unparsable_arguments_fail_before_any_effect endpoint deployment p st e :
  (json_loads (tool_call_arguments p) = None ∧ e = JSONDecodeError)
  ∨ (json_loads (tool_call_arguments p) = Some NotObj ∧ e = AttributeError) →
  FileContentExtractionTool._execute endpoint p st = (Raise e, st)
  ∧ RagTool._execute endpoint deployment p st = (Raise e, st)
  ∧ Deployment._execute p st = (Raise e, st)
  ∧ ImageGenerationTool._execute endpoint p st = (Raise e, st).
Proof.
  intros [[Hjson ->] | [Hjson ->]];
    unfold FileContentExtractionTool._execute, RagTool._execute,
      ImageGenerationTool._execute, Deployment._execute, load_arguments;
    rewrite Hjson; repeat split; reflexivity.
Qed.

End ParseFailures.

(** ** Deployment proxy: the transcript and the sinks *)

Section TranscriptFacts.
Context `{C : Collaborators} `{T : DeploymentTool}.

Lemma stage_text_app (t1 t2 : list Event) :
  stage_text (t1 ++ t2) = stage_text t1 ++ stage_text t2.
Proof. apply omap_app. Qed.

Lemma stage_attachments_app (t1 t2 : list Event) :
  stage_attachments (t1 ++ t2) = stage_attachments t1 ++ stage_attachments t2.
Proof. apply omap_app. Qed.

Lemma join_app (l1 l2 : list string) : join (l1 ++ l2) = join l1 +:+ join l2.
Proof.
  induction l1 as [| a l1 IH]; [reflexivity |].
  change (a +:+ join (l1 ++ l2) = (a +:+ join l1) +:+ join l2).
  by rewrite IH, append_assoc.
Qed.

Lemma stage_of_attachments (atts : list Attachment) :
  stage_text (StageAttachment <$> atts) = []
  ∧ stage_attachments (StageAttachment <$> atts) = atts.
Proof.
  induction atts as [| a atts [IH1 IH2]]; [done |].
  split; [exact IH1 |].
  change (a :: stage_attachments (StageAttachment <$> atts) = a :: atts).
  by rewrite IH2.
Qed.

Lemma stage_of_relayed chunk :
  join (stage_text (relayed chunk)) = increment_text chunk
  ∧ stage_attachments (relayed chunk) = [].
Proof.
  unfold relayed. case_bool_decide as Htext.
  - by rewrite Htext.
  - split; [| reflexivity]. apply append_nil_r.
Qed.

Lemma stage_of_mirrored stream :
  join (stage_text (concat (mirrored <$> stream))) = accumulated_text stream
  ∧ stage_attachments (concat (mirrored <$> stream))
    = accumulated_attachments stream.
Proof.
  induction stream as [| chunk stream [IH1 IH2]]; [done |].
  change (concat (mirrored <$> chunk :: stream))
    with (mirrored chunk ++ concat (mirrored <$> stream)).
  unfold mirrored at 1 3.
  rewrite !stage_text_app, !stage_attachments_app, !join_app.
  destruct (stage_of_relayed chunk) as [-> ->].
  destruct (stage_of_attachments (increment_attachments chunk)) as [-> ->].
  rewrite IH1, IH2. change (join []) with ""%string.
  rewrite append_nil_r. split; reflexivity.
Qed.

(** X5: what the deployment proxy shows is what it returns.  The stage
    text it appends, put together, is the content of the returned message,
    the attachments it adds to the stage are the attachments of the
    message, in the same order; it writes nothing to the final-answer sink
    and leaves the cache alone. *)
Theorem deployment_transcript_matches_result p d st :
  json_loads (tool_call_arguments p) = Some (Obj d) →
  let out := Deployment._execute p st in
  ∃ added,
    trace out.2 = trace st ++ added
    ∧ content_of out.1 = Some (join (stage_text added))
    ∧ attachments_of out.1 = Some (stage_attachments added)
    ∧ choice_of added = []
    ∧ cache out.2 = cache st.
Proof.
  intros Hjson out. subst out.
  rewrite (deployment_execute_run p d st Hjson). cbv zeta.
  eexists. split; [reflexivity |].
  cbn [fst snd content_of attachments_of msg_content msg_custom_content
       attachments cache].
  match goal with
  | |- context [Completion ?r :: ?l] =>
      change (Completion r :: l) with ([Completion r] ++ l)
  end.
  rewrite stage_text_app, stage_attachments_app, choice_of_app, join_app.
  destruct (stage_of_mirrored
              (completions_create
                 (Deployment.request_of p (dict_get d "prompt")
                    (delete "prompt" d)))) as [Htext Hatts].
  rewrite Htext, Hatts, choice_of_mirrored. repeat split; reflexivity.
Qed.

End TranscriptFacts.

(** ** Image tool: what the post-processing keeps *)

Section ImagePostProcessing.
Context `{C : Collaborators}.
Import ImageGenerationTool.

(** X6: the image tool only adds to the base result.  It returns the
    message of the deployment proxy with the same role, attachments and
    tool-call id; a message that carries text is returned unchanged; and
    the only events it adds after the base run are writes to the
    final-answer sink. *)
Theorem image_tool_keeps_text_and_metadata endpoint p d st :
  json_loads (tool_call_arguments p) = Some (Obj d) →
  let base := Deployment._execute (T := tool endpoint) p st in
  let out := _execute endpoint p st in
  ∃ m0 m inlined,
    base.1 = Ok m0 ∧ out.1 = Ok m
    ∧ msg_role m = msg_role m0
    ∧ msg_custom_content m = msg_custom_content m0
    ∧ msg_tool_call_id m = msg_tool_call_id m0
    ∧ (truthy_str (msg_content m0) = true → m = m0)
    ∧ trace out.2 = trace base.2 ++ (ChoiceContent <$> inlined)
    ∧ cache out.2 = cache st.
Proof.
  intros Hjson base out. subst base out.
  rewrite (image_execute_run endpoint p d st Hjson).
  rewrite (deployment_execute_run (T := tool endpoint) p d st Hjson).
  cbv zeta. do 3 eexists.
  split; [reflexivity |]. split; [reflexivity |].
  cbn [fst snd msg_role msg_custom_content msg_tool_call_id msg_content
       cache trace].
  repeat split.
  - intros Htext.
    destruct (accumulated_text _); [discriminate |].
    by destruct (accumulated_attachments _).
  - by rewrite <- app_assoc.
Qed.

(** X7: the confirmation does not depend on an image having been shown.
    When the base step returns no text and only attachments that are
    neither image/png nor image/jpeg, nothing is written to the
    final-answer sink and the content still becomes the confirmation
    sentence. *)
Theorem confirmation_without_inline_image endpoint p d st :
  json_loads (tool_call_arguments p) = Some (Obj d) →
  let request :=
    Deployment.request_of (T := tool endpoint) p (dict_get d "prompt")
      (delete "prompt" d) in
  let stream := completions_create request in
  accumulated_text stream = ""%string →
  accumulated_attachments stream ≠ [] →
  List.filter is_image (accumulated_attachments stream) = [] →
  let out := _execute endpoint p st in
  content_of out.1 = Some confirmation
  ∧ choice_of (trace out.2) = choice_of (trace st).
Proof.
  intros Hjson request stream Htext Hatts Hnone out. subst out.
  rewrite (image_execute_run endpoint p d st Hjson). cbv zeta.
  fold request. fold stream. rewrite Htext, Hnone.
  cbn [fst snd content_of msg_content trace]. split.
  - by destruct (accumulated_attachments stream).
  - match goal with
    | |- context [Completion ?r :: ?l] =>
        change (Completion r :: l) with ([Completion r] ++ l)
    end.
    rewrite !choice_of_app, choice_of_mirrored. simpl.
    by rewrite !app_nil_r.
Qed.

End ImagePostProcessing.

(** ** RAG tool: the search *)

Section SearchFacts.
Context `{C : Collaborators}.
Import RagTool.

Lemma fst_imap_pair {A : Type} (f : nat → nat) (l : list A) :
  (imap (λ i x, (f i, x)) l).*1 = f <$> seq 0 (length l).
Proof.
  revert f. induction l as [| x l IH]; intros f; [reflexivity |].
  rewrite imap_cons. cbn [length seq]. rewrite !fmap_cons. cbn [fst].
  f_equal. rewrite <- fmap_S_seq, <- list_fmap_compose. apply (IH (f ∘ S)).
Qed.

Lemma positions_of_imap_pair {A : Type} (l : list A) :
  (imap pair l).*1 = seq 0 (length l).
Proof.
  rewrite <- (list_fmap_id (seq 0 (length l))). exact (fst_imap_pair id l).
Qed.

Lemma ranked_perm index q : ranked index q ≡ₚ seq 0 (length index).
Proof.
  unfold ranked. rewrite ranked_sorted_perm.
  by rewrite positions_of_imap_pair.
Qed.

Lemma found_nodup index q k : NoDup (take k (ranked index q)).
Proof.
  assert (Hnodup : NoDup (ranked index q)).
  { rewrite ranked_perm. apply NoDup_seq. }
  rewrite <- (take_drop k (ranked index q)) in Hnodup.
  by apply NoDup_app in Hnodup as [? _].
Qed.

Lemma found_in_range index q k i :
  i ∈ take k (ranked index q) → (i < length index)%nat.
Proof.
  intros Hin. apply (ranked_in_range index q).
  apply elem_of_take in Hin as (j & Hj & _).
  by apply list_elem_of_lookup_2 in Hj.
Qed.

(** X8: the labels of a search.  There are exactly [k] of them: first the
    positions found, pairwise distinct and inside the index, as many as
    the smaller of [k] and the number of vectors, then [-1] in every
    remaining place; when [k] is at least the number of vectors every
    position is found. *)
Theorem search_labels index q k :
  ∃ found,
    search index q k
      = (Z.of_nat <$> found) ++ replicate (k - length found) (-1)
    ∧ length (search index q k) = k
    ∧ length found = min k (length index)
    ∧ NoDup found
    ∧ (∀ i, i ∈ found → (i < length index)%nat)
    ∧ ((length index ≤ k)%nat → found ≡ₚ seq 0 (length index)).
Proof.
  exists (take k (ranked index q)).
  split; [reflexivity |]. split; [apply length_search |].
  split; [by rewrite length_take, length_ranked |].
  split; [apply found_nodup |]. split; [apply found_in_range |].
  intros Hk. rewrite take_ge by (rewrite length_ranked; lia).
  apply ranked_perm.
Qed.

Lemma insert_ranked_sorted q x l :
  distance_order q →
  StronglySorted (λ a b : nat * Vec, l2_le q a.2 b.2 = true) l →
  StronglySorted (λ a b : nat * Vec, l2_le q a.2 b.2 = true)
    (insert_ranked q x l).
Proof.
  intros [Htotal Htrans] Hsorted.
  induction Hsorted as [| y l Hl IH Hy]; [repeat constructor |].
  simpl. destruct (l2_le q x.2 y.2) eqn:Hxy.
  - constructor; [by constructor |]. constructor; [exact Hxy |].
    eapply Forall_impl; [exact Hy |]. intros z Hyz. by eapply Htrans.
  - constructor; [exact IH |].
    rewrite insert_ranked_perm. constructor; [| exact Hy].
    destruct (Htotal y.2 x.2) as [? | Hyx]; [assumption | congruence].
Qed.

Lemma ranked_pairs_sorted q (l : list (nat * Vec)) :
  distance_order q →
  StronglySorted (λ a b : nat * Vec, l2_le q a.2 b.2 = true)
    (foldr (insert_ranked q) [] l).
Proof.
  intros Horder. induction l as [| x l IH]; [constructor |].
  simpl. by apply insert_ranked_sorted.
Qed.

(** X9: the positions come back nearest first.  When the comparison of
    distances to the query is total and transitive, the positions a
    search finds are ordered so that an earlier position never holds a
    vector farther from the query than a later one. *)
Theorem search_is_ordered_by_distance index q k :
  distance_order q →
  ∃ found,
    search index q k
      = (Z.of_nat <$> found) ++ replicate (k - length found) (-1)
    ∧ StronglySorted (closer_position index q) found.
Proof.
  intros Horder. exists (take k (ranked index q)).
  split; [reflexivity |].
  assert (Hall : StronglySorted (closer_position index q) (ranked index q)).
  { unfold ranked.
    pose proof (ranked_pairs_sorted q (imap pair index) Horder) as Hsorted.
    assert (Hpairs : Forall (λ x : nat * Vec, index !! x.1 = Some x.2)
                       (foldr (insert_ranked q) [] (imap pair index))).
    { rewrite ranked_sorted_perm. apply Forall_forall. intros [i v] Hin.
      apply elem_of_lookup_imap in Hin as (j & w & Heq & Hj).
      by injection Heq as -> ->. }
    induction Hsorted as [| x l Hl IH Hx]; [constructor |].
    apply Forall_cons in Hpairs as [Hxi Hpairs].
    rewrite fmap_cons. constructor; [by apply IH |].
    apply Forall_fmap, Forall_forall. intros y Hy.
    rewrite Forall_forall in Hx, Hpairs.
    intros vi vj Hvi Hvj. simpl in *.
    rewrite Hxi in Hvi. rewrite (Hpairs y Hy) in Hvj.
    injection Hvi as <-. injection Hvj as <-. by apply Hx. }
  rewrite <- (take_drop k (ranked index q)) in Hall.
  by apply StronglySorted_app_1_l in Hall.
Qed.

Lemma collect_lookup {A : Type} (l : list A) (positions : list nat) :
  Forall (λ i, (i < length l)%nat) positions →
  ∃ xs, collect (getitem l <$> (Z.of_nat <$> positions)) = Ok xs
        ∧ Forall2 (λ i x, l !! i = Some x) positions xs.
Proof.
  induction 1 as [| i positions Hi _ (xs & Hxs & Hall)].
  - exists []. by split.
  - destruct (lookup_lt_is_Some_2 l i Hi) as [x Hx].
    exists (x :: xs). rewrite !fmap_cons. cbn [collect].
    rewrite (getitem_nat l i x Hx), Hxs. split; [reflexivity |].
    by constructor.
Qed.

(** X10: with at least three chunks the retrieval step returns exactly
    three chunks, found at three different positions of the chunk list,
    and raises nothing. *)
Theorem retrieval_with_enough_chunks index chunks q st :
  length index = length chunks →
  (3 ≤ length chunks)%nat →
  ∃ positions retrieved,
    (retrieve index chunks q st).1 = Ok retrieved
    ∧ length positions = 3%nat
    ∧ NoDup positions
    ∧ Forall2 (λ i chunk, chunks !! i = Some chunk) positions retrieved.
Proof.
  intros Hlen Hn.
  set (found := take 3 (ranked index q)).
  assert (Hfound : length found = 3%nat).
  { subst found. rewrite length_take, length_ranked. lia. }
  destruct (collect_lookup chunks found) as (retrieved & Hcollect & Hall).
  { apply Forall_forall. intros i Hi. rewrite <- Hlen.
    by apply (found_in_range index q 3). }
  exists found, retrieved.
  split; [| split; [exact Hfound | split; [apply found_nodup | exact Hall]]].
  unfold retrieve. run. unfold search. fold found. rewrite Hfound.
  simpl replicate. by rewrite app_nil_r, Hcollect.
Qed.

End SearchFacts.

(** ** RAG tool: building, reusing and answering *)

Section RagRuns.
Context `{C : Collaborators}.
Import RagTool.



(** The retrieval step on a consistent entry with at least one chunk. *)
Lemma retrieve_run index chunks q st last_chunk :
  length index = length chunks →
  last chunks = Some last_chunk →
  ∃ retrieved,
    collect (getitem chunks <$> search index q 3) = Ok retrieved
    ∧ retrieve index chunks q st
      = (Ok retrieved,
         {| cache := cache st; trace := trace st ++ [IndexSearch 3] |})
    ∧ length retrieved = 3%nat
    ∧ (∀ chunk, chunk ∈ retrieved → chunk ∈ chunks).
Proof.
  intros Hlen Hlast.
  assert (0 < length chunks)%nat
    by (destruct chunks; [discriminate | simpl; lia]).
  destruct (collect_lookup chunks (take 3 (ranked index q)))
    as (found & Hfound & Hall).
  { apply Forall_forall. intros i Hin. rewrite <- Hlen.
    by apply (found_in_range index q 3). }
  assert (Hl : length found = (3 `min` length chunks)%nat).
  { rewrite <- (Forall2_length _ _ _ Hall).
    by rewrite length_take, length_ranked, Hlen. }
  assert (Hcollect :
            collect (getitem chunks <$> search index q 3)
            = Ok (found ++ replicate (3 - 3 `min` length chunks) last_chunk)).
  { unfold search.
    rewrite fmap_app, fmap_replicate, (getitem_minus_one _ _ Hlast).
    rewrite length_take, length_ranked, Hlen.
    by rewrite (collect_app _ _ _ _ Hfound (collect_replicate _ _)). }
  exists (found ++ replicate (3 - 3 `min` length chunks) last_chunk).
  split; [exact Hcollect |]. split; [| split].
  - unfold retrieve. run. by rewrite Hcollect.
  - rewrite length_app, length_replicate. lia.
  - intros chunk [Hin | Hin]%elem_of_app.
    + apply list_elem_of_lookup in Hin as [k Hk].
      destruct (Forall2_lookup_r _ _ _ _ _ Hall Hk) as (i & _ & Hi).
      by apply list_elem_of_lookup_2 in Hi.
    + apply elem_of_replicate in Hin as [-> _].
      rewrite last_lookup in Hlast.
      by apply list_elem_of_lookup_2 in Hlast.
Qed.

(** X13: the answer on a cache hit.  For a string request and a cached
    entry with one vector per chunk and at least one chunk, the tool
    raises nothing.  The retrieved chunks are the cached chunks at the
    three labels that the search of the cached index gives for the
    embedded request; the tool sends one streaming request whose messages
    are the fixed system prompt and the prompt augmented with exactly
    these chunks, returns the text of the increments put together, and
    writes nothing to the final-answer sink. *)
Theorem hit_returns_the_generated_text endpoint deployment p d st
    index chunks request last_chunk :
  json_loads (tool_call_arguments p) = Some (Obj d) →
  dict_get d "request" = PStr request →
  let key :=
    cache_document_key (conversation_id p) (dict_get d "file_url") in
  cache st !! key = Some (index, chunks) →
  length index = length chunks →
  last chunks = Some last_chunk →
  let out := _execute endpoint deployment p st in
  ∃ retrieved,
    collect (getitem chunks <$> search index (encode request) 3)
      = Ok retrieved
    ∧ length retrieved = 3%nat
    ∧ (∀ chunk, chunk ∈ retrieved → chunk ∈ chunks)
    ∧ let generation :=
        generation_request endpoint deployment p
          (augmentation (PStr request) retrieved) in
      out.1 = Ok (accumulated_text (completions_create generation))
      ∧ requests_of (trace out.2) = requests_of (trace st) ++ [generation]
      ∧ choice_of (trace out.2) = choice_of (trace st).
Proof.
  intros Hjson Hrequest key Hhit Hlen Hlast out. subst out.
  rewrite (execute_hit endpoint deployment p d st index chunks Hjson Hhit).
  rewrite Hrequest. unfold answer. run_monad.
  match goal with
  | |- context [retrieve ?i ?c ?q ?s] =>
      destruct (retrieve_run i c q s last_chunk Hlen Hlast)
        as (retrieved & Hcollect & Hretrieve & H3 & Hfrom)
  end.
  rewrite Hretrieve. run_monad.
  exists retrieved. split; [exact Hcollect |]. split; [exact H3 |].
  split; [exact Hfrom |]. cbv zeta.
  fold (generation_request endpoint deployment p
          (augmentation (PStr request) retrieved)).
  rewrite rag_for_fold_consume. cbn [fst snd trace].
  split; [reflexivity |].
  assert (Hstream : ∀ stream,
            requests_of (concat (relayed <$> stream)) = []
            ∧ choice_of (concat (relayed <$> stream)) = []).
  { intros stream. induction stream as [| chunk stream [IH1 IH2]]; [done |].
    change (concat (relayed <$> chunk :: stream))
      with (relayed chunk ++ concat (relayed <$> stream)).
    rewrite requests_of_app, choice_of_app, IH1, IH2.
    unfold relayed. by destruct (bool_decide _). }
  destruct (Hstream (completions_create
                       (generation_request endpoint deployment p
                          (augmentation (PStr request) retrieved))))
    as [Hreq Hchoice].
  rewrite !requests_of_app, !choice_of_app, Hreq, Hchoice.
  split; simpl; by rewrite ?app_nil_r.
Qed.

Lemma fold_left_append {A : Type} (g : A → string) (l : list A) acc :
  fold_left (λ acc x, acc +:+ g x) l acc = acc +:+ join (g <$> l).
Proof.
  revert acc. induction l as [| x l IH]; intros acc.
  - simpl. by rewrite append_nil_r.
  - simpl fold_left. rewrite IH, append_assoc. reflexivity.
Qed.

(** X14: the augmented prompt in closed form.  It is the instruction line,
    then one labelled block per chunk in list order with ordinals
    starting at 1, then the question and the answer cue; with no chunk
    the question follows the instruction directly. *)
Theorem augmentation_layout request chunks :
  augmentation request chunks
  = (("Use the following retrieved chunks from the document to answer the question:"
        +:+ LF +:+ LF)
     +:+ join (imap labelled_chunk chunks))
    +:+ "Question: " +:+ str request +:+ LF +:+ LF +:+ "Answer:".
Proof.
  unfold augmentation. cbv zeta.
  rewrite (fold_left_append (λ ic : nat * string, labelled_chunk ic.1 ic.2)).
  rewrite fmap_imap. reflexivity.
Qed.

End RagRuns.

(** ** Remote tools *)

Section RemoteToolFacts.
Context `{C : Collaborators} `{R : MCPClient}.

(** X15: the remote tool relays.  Whatever JSON value the payload parses
    to, object or not, is handed to the remote call under the tool's
    name; when the call succeeds its content is the result and the only
    thing appended to the stage; when it fails the failure is passed on
    and nothing is written. *)
Theorem remote_tool_relays_the_content model p st tool_args :
  json_loads (tool_call_arguments p) = Some tool_args →
  let out := MCPTool._execute model p st in
  (∀ content,
     call_tool (mcp_name model) tool_args = Ok content →
     out = (Ok content,
            {| cache := cache st;
               trace := trace st ++ [StageContent content] |}))
  ∧ (∀ e, call_tool (mcp_name model) tool_args = Raise e →
          out = (Raise e, st)).
Proof.
  intros Hjson out. subst out. unfold MCPTool._execute. rewrite Hjson.
  split.
  - intros content Hcall. run. rewrite Hcall. reflexivity.
  - intros e Hcall. run. rewrite Hcall. reflexivity.
Qed.

End RemoteToolFacts.

(** ** The application: when tools are created *)

Section ApplicationFacts.
Context `{C : Collaborators} `{R : MCPClient} `{E : !App.Environment}.
Import App.

Lemma chat_completion_with_tools app st :
  tools app ≠ [] →
  chat_completion app st
  = ((handle_request (tools app) st).1, app, (handle_request (tools app) st).2).
Proof.
  intros Htools. unfold chat_completion.
  destruct (tools app) as [| t ts] eqn:Heq; [done |].
  by destruct (handle_request (t :: ts) st).
Qed.

Lemma chat_completion_creates app st models :
  tools app = [] →
  discover mcp_server = Ok models →
  let created :=
    [ImageGeneration DIAL_ENDPOINT; FileContentExtraction DIAL_ENDPOINT;
     Rag DIAL_ENDPOINT DEPLOYMENT_NAME] ++ (MCP <$> models) in
  chat_completion app st
  = ((handle_request created (fresh_cache st)).1,
     {| tools := created; connections := connections app ++ [mcp_server] |},
     (handle_request created (fresh_cache st)).2).
Proof.
  intros Hempty Hdiscover created. unfold chat_completion, _create_tools, created_tools, begin_creation.
  rewrite Hempty, Hdiscover. fold created.
  by destruct (handle_request created (fresh_cache st)).
Qed.

Lemma serve_with_tools n app st :
  tools app ≠ [] → (serve n app st).1 = app.
Proof.
  revert st. induction n as [| n IH]; intros st Htools; [reflexivity |].
  simpl. rewrite chat_completion_with_tools by assumption.
  by apply IH.
Qed.

(** A request that arrives alone and is resumed at once is
    [chat_completion]. *)
Lemma arrive_then_resume app st :
  step Resume (step Arrive {| application := app; state := st; waiting := 0 |})
  = {| application := (chat_completion app st).1.2;
       state := (chat_completion app st).2;
       waiting := 0 |}.
Proof.
  unfold chat_completion, _create_tools. cbn [step application state waiting].
  destruct (tools app) as [| t ts] eqn:Htools.
  - cbn [step application state waiting]. destruct created_tools as [created | e].
    + by destruct (handle_request created (fresh_cache st)).
    + reflexivity.
  - destruct (handle_request (t :: ts) st) as [r st'] eqn:Hagent.
    reflexivity.
Qed.

Lemma serve_is_sequential_run n app st :
  run (concat (replicate n [Arrive; Resume]))
    {| application := app; state := st; waiting := 0 |}
  = {| application := (serve n app st).1;
       state := (serve n app st).2;
       waiting := 0 |}.
Proof.
  revert app st. induction n as [| n IH]; intros app st; [reflexivity |].
  cbn [replicate concat List.app].
  change (run (Arrive :: Resume :: ?l) ?s)
    with (run l (step Resume (step Arrive s))).
  rewrite arrive_then_resume, IH. cbn [serve].
  by destruct (chat_completion app st) as [[r app'] st'].
Qed.

(** X16: without overlap the tools are created once.  When requests are
    handled one after another, each resumed and finished before the next
    arrives, starting without tools and with a discovery that succeeds,
    any number of requests (at least one) leaves the application with the
    three local tools followed by one tool per discovered model, having
    connected to the server exactly once, whatever the agent loop does;
    the tool names are the three fixed names followed by the remote
    names.  [serve] is this schedule of the step model. *)
Theorem tools_are_created_once app st models n :
  tools app = [] →
  discover mcp_server = Ok models →
  let app' := (serve (S n) app st).1 in
  tools app'
  = [ImageGeneration DIAL_ENDPOINT; FileContentExtraction DIAL_ENDPOINT;
     Rag DIAL_ENDPOINT DEPLOYMENT_NAME] ++ (MCP <$> models)
  ∧ connections app' = connections app ++ [mcp_server]
  ∧ name <$> tools app'
    = ["image_generation_tool"; "file_content_extractor"; "rag_tool"]%string
      ++ (mcp_name <$> models)
  ∧ application
      (run (concat (replicate (S n) [Arrive; Resume]))
         {| application := app; state := st; waiting := 0 |})
    = app'.
Proof.
  intros Hempty Hdiscover app'.
  assert (Happ : app'
                 = {| tools := [ImageGeneration DIAL_ENDPOINT;
                                FileContentExtraction DIAL_ENDPOINT;
                                Rag DIAL_ENDPOINT DEPLOYMENT_NAME]
                               ++ (MCP <$> models);
                      connections := connections app ++ [mcp_server] |}).
  { subst app'. simpl serve.
    rewrite (chat_completion_creates app st models Hempty Hdiscover).
    cbv zeta. by rewrite serve_with_tools. }
  split; [by rewrite Happ |]. split; [by rewrite Happ |]. split.
  - rewrite Happ. cbn [tools].
    rewrite fmap_app, <- list_fmap_compose. reflexivity.
  - by rewrite serve_is_sequential_run.
Qed.

Lemma run_app l1 l2 s : run (l1 ++ l2) s = run l2 (run l1 s).
Proof. apply fold_left_app. Qed.

Lemma arrivals_wait k app st w :
  tools app = [] →
  run (replicate k Arrive) {| application := app; state := st; waiting := w |}
  = {| application :=
         {| tools := [];
            connections := connections app ++ replicate k mcp_server |};
       state := st;
       waiting := w + k |}.
Proof.
  revert app w. induction k as [| k IH]; intros app w Hempty.
  - simpl. rewrite app_nil_r, Nat.add_0_r. destruct app.
    simpl in Hempty. by subst.
  - cbn [replicate]. change (run (Arrive :: ?l) ?s) with (run l (step Arrive s)).
    cbn [step application state waiting]. rewrite Hempty.
    rewrite IH by exact Hempty. unfold begin_creation. cbn [connections].
    rewrite <- app_assoc. f_equal. lia.
Qed.

Lemma resumptions_assign k app st models :
  discover mcp_server = Ok models →
  let created :=
    [ImageGeneration DIAL_ENDPOINT; FileContentExtraction DIAL_ENDPOINT;
     Rag DIAL_ENDPOINT DEPLOYMENT_NAME] ++ (MCP <$> models) in
  ∃ st',
    run (replicate (S k) Resume)
      {| application := app; state := st; waiting := S k |}
    = {| application := {| tools := created; connections := connections app |};
         state := st';
         waiting := 0 |}.
Proof.
  intros Hdiscover created. revert app st.
  induction k as [| k IH]; intros app st.
  - cbn [replicate]. unfold run. cbn [fold_left step application state waiting].
    unfold created_tools. rewrite Hdiscover. fold created.
    destruct (handle_request created (fresh_cache st)) as [r st'].
    by exists st'.
  - change (replicate (S (S k)) Resume) with (Resume :: replicate (S k) Resume).
    change (run (Resume :: ?l) ?s) with (run l (step Resume s)).
    cbn [step application state waiting].
    unfold created_tools. rewrite Hdiscover. fold created.
    destruct (handle_request created (fresh_cache st)) as [r st1].
    destruct (IH {| tools := created; connections := connections app |} st1)
      as [st' Hrun].
    exists st'. by rewrite Hrun.
Qed.

(** X18: overlapping first requests each create the tools.  When several
    requests arrive before the first creation is resumed, every one of
    them finds [self.tools] empty and opens its own connection to the
    server; once all are resumed the application holds the created tools
    and has connected once per request. *)
Theorem overlapping_requests_each_connect app st models k :
  tools app = [] →
  discover mcp_server = Ok models →
  let final :=
    run (replicate (S k) Arrive ++ replicate (S k) Resume)
      {| application := app; state := st; waiting := 0 |} in
  connections (application final)
  = connections app ++ replicate (S k) mcp_server
  ∧ tools (application final)
    = [ImageGeneration DIAL_ENDPOINT; FileContentExtraction DIAL_ENDPOINT;
       Rag DIAL_ENDPOINT DEPLOYMENT_NAME] ++ (MCP <$> models)
  ∧ waiting final = 0%nat.
Proof.
  intros Hempty Hdiscover final. subst final.
  rewrite run_app, (arrivals_wait (S k) app st 0 Hempty).
  change (0 + S k)%nat with (S k).
  destruct (resumptions_assign k
              {| tools := [];
                 connections := connections app ++ replicate (S k) mcp_server |}
              st models Hdiscover) as [st' Hrun].
  rewrite Hrun. by repeat split.
Qed.

(** X17: a failed discovery is retried by every request.  While the
    remote server cannot be reached, each request fails before the agent
    runs: the application stays without tools, the state of the sinks and
    the cache is untouched, and every request has tried the server once
    more. *)
Theorem failed_creation_is_retried app st e n :
  tools app = [] →
  discover mcp_server = Raise e →
  serve n app st
  = ({| tools := [];
        connections := connections app ++ replicate n mcp_server |}, st)
  ∧ (chat_completion app st).1.1 = Raise e.
Proof.
  intros Hempty Hdiscover. split.
  - revert app Hempty. induction n as [| n IH]; intros app Hempty.
    + simpl. rewrite app_nil_r. destruct app. simpl in Hempty. by subst.
    + simpl serve. unfold chat_completion, _create_tools, created_tools, begin_creation.
      rewrite Hempty, Hdiscover. rewrite IH by reflexivity.
      cbn [connections]. rewrite <- app_assoc. reflexivity.
  - unfold chat_completion, _create_tools, created_tools, begin_creation.
    by rewrite Hempty, Hdiscover.
Qed.

End ApplicationFacts.

(** ** The further properties on the scenarios *)

Lemma unparsable_arguments_fail_before_any_effect_witness :
  RagTool._execute (H := MoreScenarios.parsing (Some NotObj))
    "http://localhost:8080" "gpt-4o" (Scenario.params "conv1")
    Scenario.initial
  = (Raise AttributeError, Scenario.initial).
Proof.
  destruct (unparsable_arguments_fail_before_any_effect
              (C := MoreScenarios.parsing (Some NotObj))
              (T := ImageGenerationTool.tool "http://localhost:8080")
              "http://localhost:8080" "gpt-4o" (Scenario.params "conv1")
              Scenario.initial AttributeError
              (or_intror (conj eq_refl eq_refl)))
    as (_ & Hrag & _).
  exact Hrag.
Defined.

Lemma deployment_transcript_matches_result_witness :
  let out :=
    Deployment._execute (C := ImageScenario.talking)
      (T := ImageGenerationTool.tool "http://localhost:8080")
      (Scenario.params "conv1") Scenario.initial in
  ∃ added,
    trace out.2 = [] ++ added
    ∧ content_of out.1 = Some (join (stage_text added))
    ∧ attachments_of out.1 = Some (stage_attachments added)
    ∧ choice_of added = []
    ∧ cache out.2 = ∅.
Proof.
  apply (deployment_transcript_matches_result
           (C := ImageScenario.talking)
           (T := ImageGenerationTool.tool "http://localhost:8080")
           (Scenario.params "conv1") ImageScenario.arguments
           Scenario.initial eq_refl).
Defined.

Lemma image_tool_keeps_text_and_metadata_witness :
  let base :=
    Deployment._execute (C := ImageScenario.talking)
      (T := ImageGenerationTool.tool "http://localhost:8080")
      (Scenario.params "conv1") Scenario.initial in
  let out :=
    ImageGenerationTool._execute (H := ImageScenario.talking)
      "http://localhost:8080" (Scenario.params "conv1") Scenario.initial in
  ∃ m0 m inlined,
    base.1 = Ok m0 ∧ out.1 = Ok m
    ∧ msg_role m = msg_role m0
    ∧ msg_custom_content m = msg_custom_content m0
    ∧ msg_tool_call_id m = msg_tool_call_id m0
    ∧ (truthy_str (msg_content m0) = true → m = m0)
    ∧ trace out.2 = trace base.2 ++ (ChoiceContent <$> inlined)
    ∧ cache out.2 = ∅.
Proof.
  apply (image_tool_keeps_text_and_metadata (C := ImageScenario.talking)
           "http://localhost:8080" (Scenario.params "conv1")
           ImageScenario.arguments Scenario.initial eq_refl).
Defined.

Lemma confirmation_without_inline_image_witness :
  let out :=
    ImageGenerationTool._execute (H := MoreScenarios.notes_only)
      "http://localhost:8080" (Scenario.params "conv1") Scenario.initial in
  content_of out.1 = Some ImageGenerationTool.confirmation
  ∧ choice_of (trace out.2) = [].
Proof.
  apply (confirmation_without_inline_image (C := MoreScenarios.notes_only)
           "http://localhost:8080" (Scenario.params "conv1")
           ImageScenario.arguments Scenario.initial eq_refl eq_refl).
  - discriminate.
  - reflexivity.
Defined.

Lemma search_is_ordered_by_distance_witness :
  ∃ found,
    RagTool.search (H := RagScenario.readable) [27; 12; 30] 26 2
      = (Z.of_nat <$> found) ++ replicate (2 - length found) (-1)
    ∧ StronglySorted
        (closer_position (H := RagScenario.readable) [27; 12; 30] 26) found.
Proof.
  apply (search_is_ordered_by_distance (C := RagScenario.readable)
           [27; 12; 30] 26 2).
  split.
  - intros a b. simpl. rewrite !Z.leb_le. lia.
  - intros a b c. simpl. rewrite !Z.leb_le. lia.
Defined.

Lemma retrieval_with_enough_chunks_witness :
  ∃ positions retrieved,
    (RagTool.retrieve (H := RagScenario.readable) [27; 12; 30]
       ["Refunds within thirty days."%string; "Ask support."%string;
        "Shipping takes about a week."%string] 26 RagScenario.cached).1
      = Ok retrieved
    ∧ length positions = 3%nat
    ∧ NoDup positions
    ∧ Forall2
        (λ i chunk,
           ["Refunds within thirty days."%string; "Ask support."%string;
            "Shipping takes about a week."%string] !! i = Some chunk)
        positions retrieved.
Proof.
  apply (retrieval_with_enough_chunks (C := RagScenario.readable)
           [27; 12; 30]
           ["Refunds within thirty days."%string; "Ask support."%string;
            "Shipping takes about a week."%string] 26 RagScenario.cached
           eq_refl).
  simpl. lia.
Defined.



Lemma hit_returns_the_generated_text_witness :
  (RagTool._execute (H := RagScenario.readable) "http://localhost:8080"
     "gpt-4o" (Scenario.params "conv1") RagScenario.cached).1
  = Ok "Thirty days."%string.
Proof.
  destruct (hit_returns_the_generated_text (C := RagScenario.readable)
              "http://localhost:8080" "gpt-4o" (Scenario.params "conv1")
              RagScenario.arguments RagScenario.cached [27; 12]
              ["Refunds within thirty days."%string; "Ask support."%string]
              "What is the refund policy?" "Ask support."
              eq_refl ltac:(vm_compute; reflexivity)
              ltac:(vm_compute; reflexivity) eq_refl eq_refl)
    as (retrieved & _ & _ & _ & Hresult & _).
  rewrite Hresult. reflexivity.
Defined.

Lemma remote_tool_relays_the_content_witness :
  MCPTool._execute (C := MoreScenarios.parsing (Some NotObj))
    (R := MoreScenarios.remote) MoreScenarios.weather
    (Scenario.params "conv1") Scenario.initial
  = (Ok "sunny, says get_weather"%string,
     {| cache := ∅; trace := [StageContent "sunny, says get_weather"] |}).
Proof.
  destruct (remote_tool_relays_the_content
              (C := MoreScenarios.parsing (Some NotObj))
              (R := MoreScenarios.remote) MoreScenarios.weather
              (Scenario.params "conv1") Scenario.initial NotObj eq_refl)
    as (Hok & _).
  apply Hok. reflexivity.
Defined.

Lemma tools_are_created_once_witness :
  let app :=
    (App.serve (C := RagScenario.readable) (R := MoreScenarios.remote)
       (E := MoreScenarios.environment) 3 MoreScenarios.started
       Scenario.initial).1 in
  App.name <$> App.tools app
  = ["image_generation_tool"; "file_content_extractor"; "rag_tool";
     "get_weather"]%string
  ∧ App.connections app = ["http://localhost:8051/mcp"%string].
Proof.
  destruct (tools_are_created_once (C := RagScenario.readable)
              (R := MoreScenarios.remote)
              (E := MoreScenarios.environment)
              MoreScenarios.started Scenario.initial [MoreScenarios.weather]
              2 eq_refl eq_refl)
    as (_ & Hconnections & Hnames & _).
  split; assumption.
Defined.

Lemma failed_creation_is_retried_witness :
  App.serve (C := RagScenario.readable) (R := MoreScenarios.unreachable)
    (E := MoreScenarios.environment) 2 MoreScenarios.started
    RagScenario.cached
  = ({| App.tools := [];
        App.connections := ["http://localhost:8051/mcp"%string;
                            "http://localhost:8051/mcp"%string] |},
     RagScenario.cached).
Proof.
  destruct (failed_creation_is_retried (C := RagScenario.readable)
              (R := MoreScenarios.unreachable)
              (E := MoreScenarios.environment)
              MoreScenarios.started RagScenario.cached TypeError 2
              eq_refl eq_refl)
    as (Hserve & _).
  exact Hserve.
Defined.

Lemma overlapping_requests_each_connect_witness :
  App.connections
    (App.application
       (App.run (C := RagScenario.readable) (R := MoreScenarios.remote)
          (E := MoreScenarios.environment)
          [App.Arrive; App.Arrive; App.Resume; App.Resume]
          {| App.application := MoreScenarios.started;
             App.state := Scenario.initial;
             App.waiting := 0 |}))
  = ["http://localhost:8051/mcp"%string; "http://localhost:8051/mcp"%string].
Proof.
  destruct (overlapping_requests_each_connect (C := RagScenario.readable)
              (R := MoreScenarios.remote) (E := MoreScenarios.environment)
              MoreScenarios.started Scenario.initial [MoreScenarios.weather]
              1 eq_refl eq_refl)
    as (Hconnections & _).
  exact Hconnections.
Defined.
